(** * RES Connect portal: the /api/search and /api/chat route handlers

    A shallow embedding of the two Next.js route handlers of the portal
    ([portal/src/app/api/search/route.ts] and
    [portal/src/app/api/chat/route.ts]) together with the JavaScript
    library functions they call, and the properties of the query path
    that can be read off them.

    Conventions.
    - A JavaScript string is a [string]; [toLowerCase] and the [\s] class
      are the ASCII ones.
    - A JavaScript number is the rational it denotes ([Q]). [SearchRoute]
      and the search page add, multiply, subtract and compare scores as
      exact rationals, the literal [0.02] being [2 # 100], and what is
      proved about them rests on the order of the scores and on the cap.
      [SearchRouteIEEE] is the same handler with every operation rounded to
      the nearest IEEE 754 double ([JS.double]), and is the one to read for
      the value of a score.
    - A [SearchResult] carries a score, as its declared type says. The
      records of the index are requested without one, so nothing is stated
      about the score of a result that came from the index.
    - [process.env.X] is an [option string]; [fetch] is an oracle from the
      request to what the network answers, and a handler returns its JSON
      response together with the list of requests it issued, in order. *)

From Stdlib Require Import List String Ascii Bool Arith ZArith QArith Lia Lqa.
From Stdlib Require Import DecimalString Qround Qpower.
From Stdlib Require Import Permutation Sorted.
From Stdlib Require Import Floats.
Import ListNotations.

Close Scope Q_scope.
Open Scope list_scope.
Open Scope string_scope.

(** ** JavaScript library functions used by the handlers *)

Module JS.

(** Truthiness of [process.env.X]: defined and not the empty string. *)
Definition truthy (v : option string) : bool :=
  match v with
  | Some s => negb (s =? "")
  | None => false
  end.

(** [v ?? d] and destructuring defaults ([{ query = "" } = body]). *)
Definition nullish {A} (v : option A) (d : A) : A :=
  match v with
  | Some a => a
  | None => d
  end.

(** A template literal that reads an environment variable already known
    to be truthy. *)
Definition env_text (v : option string) : string := nullish v "".

Definition lower_ascii (c : ascii) : ascii :=
  let n := nat_of_ascii c in
  if (65 <=? n)%nat && (n <=? 90)%nat then ascii_of_nat (n + 32) else c.

(** [String.prototype.toLowerCase]. *)
Fixpoint toLowerCase (s : string) : string :=
  match s with
  | EmptyString => EmptyString
  | String c s' => String (lower_ascii c) (toLowerCase s')
  end.

(** The regular expression class [\s]: tab, line feed, vertical tab, form
    feed, carriage return and space. *)
Definition is_space (c : ascii) : bool :=
  let n := nat_of_ascii c in
  ((9 <=? n)%nat && (n <=? 13)%nat) || (n =? 32)%nat.

(** [s.split(/\s+/)], scanning left to right: [cur] is the piece being
    read and [in_ws] tells that the previous character was white space. *)
Fixpoint split_ws_from (s cur : string) (in_ws : bool) : list string :=
  match s with
  | EmptyString => [cur]
  | String c s' =>
      if is_space c
      then if in_ws then split_ws_from s' cur true
           else cur :: split_ws_from s' EmptyString true
      else split_ws_from s' (cur ++ String c EmptyString) false
  end.

Definition split_ws (s : string) : list string :=
  split_ws_from s EmptyString false.

(** Every character of [s] passes [p]. *)
Fixpoint all_chars (p : ascii -> bool) (s : string) : bool :=
  match s with
  | EmptyString => true
  | String c s' => p c && all_chars p s'
  end.

Definition no_space (s : string) : bool :=
  all_chars (fun c => negb (is_space c)) s.

(** [text.includes(t)]: [t] occurs in [text] at some position. *)
Fixpoint includes (text t : string) : bool :=
  String.prefix t text
  || match text with
     | EmptyString => false
     | String _ text' => includes text' t
     end.

(** [arr.slice(start)], with a negative [start] counted from the end. *)
Definition slice {A} (start : Z) (l : list A) : list A :=
  let len := Z.of_nat (List.length l) in
  let k := if (start <? 0)%Z then Z.max (len + start) 0 else Z.min start len in
  skipn (Z.to_nat k) l.

(** [Math.min(a, b)] on scores. *)
Definition Math_min (a b : Q) : Q := if Qle_bool a b then a else b.

(** [arr.sort(cmp)]: the sort is stable, and [a] stays in front of [b]
    when [cmp a b <= 0].  Insertion from the right keeps equal elements in
    their original order. *)
Section Sort.
Context {A : Type} (cmp : A -> A -> Q).

Fixpoint insert (x : A) (l : list A) : list A :=
  match l with
  | [] => [x]
  | y :: l' => if Qle_bool (cmp x y) 0 then x :: l else y :: insert x l'
  end.

Definition sort (l : list A) : list A := fold_right insert [] l.
End Sort.

(** [String.prototype.trimStart], [trimEnd] and [trim]; the white space
    and line terminators they remove are, in ASCII, the characters of
    [is_space]. *)
Fixpoint trimStart (s : string) : string :=
  match s with
  | EmptyString => EmptyString
  | String c s' => if is_space c then trimStart s' else s
  end.

Fixpoint trimEnd (s : string) : string :=
  match s with
  | EmptyString => EmptyString
  | String c s' =>
      match trimEnd s' with
      | EmptyString => if is_space c then EmptyString else String c EmptyString
      | String d t => String c (String d t)
      end
  end.

Definition trim (s : string) : string := trimEnd (trimStart s).

(** [Math.round]: the nearest integer, a half rounding up. *)
Definition Math_round (x : Q) : Z := Qfloor (x + (1 # 2))%Q.

(** [arr.slice(start, end)], each bound counted from the end when
    negative and clamped to the array. *)
Definition relative_index (len i : Z) : Z :=
  if (i <? 0)%Z then Z.max (len + i) 0 else Z.min i len.

Definition slice_range {A} (start stop : Z) (l : list A) : list A :=
  let len := Z.of_nat (List.length l) in
  let k := relative_index len start in
  let final := relative_index len stop in
  firstn (Z.to_nat (final - k)) (skipn (Z.to_nat k) l).

(** [encodeURIComponent]: every byte is escaped as a percent sign and two
    upper-case hexadecimal digits, except letters, digits and the marks
    [- _ . ! ~ * ' ( )]. *)
Definition hexDigit (n : nat) : ascii :=
  nth n (list_ascii_of_string "0123456789ABCDEF") "0"%char.

Definition uriUnreserved (c : ascii) : bool :=
  let n := nat_of_ascii c in
  ((65 <=? n)%nat && (n <=? 90)%nat)
  || ((97 <=? n)%nat && (n <=? 122)%nat)
  || ((48 <=? n)%nat && (n <=? 57)%nat)
  || existsb (Ascii.eqb c) (list_ascii_of_string "-_.!~*'()").

Definition encodeByte (c : ascii) : string :=
  if uriUnreserved c then String c EmptyString
  else String "%" (String (hexDigit (nat_of_ascii c / 16))
                     (String (hexDigit (nat_of_ascii c mod 16)) EmptyString)).

Fixpoint encodeURIComponent (s : string) : string :=
  match s with
  | EmptyString => EmptyString
  | String c s' => encodeByte c ++ encodeURIComponent s'
  end.

(** The query string of a URL as [URLSearchParams] reads it: the part
    between the first question mark and the fragment, cut at ampersands,
    each piece cut at its first equals sign, plus signs turned into spaces
    and percent escapes decoded. *)
Definition hexValue (c : ascii) : option nat :=
  let n := nat_of_ascii c in
  if (48 <=? n)%nat && (n <=? 57)%nat then Some (n - 48)
  else if (65 <=? n)%nat && (n <=? 70)%nat then Some (n - 55)
  else if (97 <=? n)%nat && (n <=? 102)%nat then Some (n - 87)
  else None.

Fixpoint percentDecode (s : string) : string :=
  match s with
  | EmptyString => EmptyString
  | String c t =>
      if Ascii.eqb c "%" then
        match t with
        | String a (String b rest) =>
            match hexValue a, hexValue b with
            | Some x, Some y =>
                String (ascii_of_nat (16 * x + y)) (percentDecode rest)
            | _, _ => String c (percentDecode t)
            end
        | _ => String c (percentDecode t)
        end
      else String c (percentDecode t)
  end.

Fixpoint plusToSpace (s : string) : string :=
  match s with
  | EmptyString => EmptyString
  | String c t => String (if Ascii.eqb c "+" then " "%char else c) (plusToSpace t)
  end.

(** The text before the first [sep], and the text after it when there is
    one. *)
Fixpoint cutAt (sep : ascii) (s : string) : string * option string :=
  match s with
  | EmptyString => (EmptyString, None)
  | String c t =>
      if Ascii.eqb c sep then (EmptyString, Some t)
      else let (before, rest) := cutAt sep t in (String c before, rest)
  end.

Fixpoint splitOn (sep : ascii) (s : string) : list string :=
  match s with
  | EmptyString => [EmptyString]
  | String c t =>
      if Ascii.eqb c sep then EmptyString :: splitOn sep t
      else match splitOn sep t with
           | [] => [String c EmptyString]
           | piece :: pieces => String c piece :: pieces
           end
  end.

Definition formPair (piece : string) : string * string :=
  let (name, value) := cutAt "=" piece in
  (percentDecode (plusToSpace name), percentDecode (plusToSpace (nullish value ""))).

Definition formParse (query : string) : list (string * string) :=
  map formPair (List.filter (fun piece => negb (piece =? "")) (splitOn "&" query)).

Definition urlQuery (url : string) : string :=
  nullish (snd (cutAt "?" (fst (cutAt "#" url)))) "".

(** [new URL(url).searchParams.get(name)]. *)
Definition searchParamsGet (name url : string) : option string :=
  option_map snd
    (List.find (fun pair => fst pair =? name) (formParse (urlQuery url))).

(** The path of a URL: what comes before the query string and the
    fragment. *)
Definition urlPath (url : string) : string :=
  fst (cutAt "?" (fst (cutAt "#" url))).

(** *** Numbers

    A JavaScript number is an IEEE 754 double. A finite double is taken as
    the rational it denotes, and [a + b], [a - b], [a * b] and a decimal
    literal give the double nearest to the exact value, a tie going to the
    even significand: 53 bits of significand in the binade of the value, and
    multiples of [2^-1074] below [2^-1022]. A value beyond the largest double
    (about 1.8e308), which JavaScript turns into [Infinity], is left as the
    rational it is: scores and page numbers stay far below. *)
Definition pow2 (e : Z) : Q := (2 ^ e)%Q.

(** The exponent [e] with [2^e <= q < 2^(e+1)], for a positive [q]. *)
Definition binade (q : Q) : Z :=
  let e := (Z.log2 (Qnum q) - Z.log2 (Zpos (Qden q)))%Z in
  if Qle_bool (pow2 e) q then e else (e - 1)%Z.

(** The integer nearest to a rational that is not negative, a half going
    to the even neighbour. *)
Definition nearestEven (q : Q) : Z :=
  let f := Qfloor q in
  match (q - inject_Z f ?= 1 # 2)%Q with
  | Lt => f
  | Gt => (f + 1)%Z
  | Eq => if Z.even f then f else (f + 1)%Z
  end.

(** The unit in the last place of the doubles around a positive [q]. *)
Definition ulp (q : Q) : Q := pow2 (Z.max (binade q - 52) (-1074)).

Definition roundPositive (q : Q) : Q :=
  (inject_Z (nearestEven (q / ulp q)) * ulp q)%Q.

(** The double nearest to [q]. *)
Definition double (q : Q) : Q :=
  match (q ?= 0)%Q with
  | Eq => 0%Q
  | Gt => roundPositive q
  | Lt => (- roundPositive (- q))%Q
  end.

(** [a + b], [a - b] and [a * b] on doubles. *)
Definition add (a b : Q) : Q := double (a + b)%Q.
Definition sub (a b : Q) : Q := double (a - b)%Q.
Definition mul (a b : Q) : Q := double (a * b)%Q.

(** *** The doubles of the machine

    The primitive floats of the proof assistant are IEEE 754 binary64
    numbers, computed by the machine. [binary64] is the rational a finite
    one denotes and [scaled m e] the float [m * 2^e]; they serve to compare
    [double], [add], [sub] and [mul] with the machine on samples. *)
Definition binary64 (f : float) : option Q :=
  match Prim2SF f with
  | S754_zero _ => Some 0%Q
  | S754_finite s m e =>
      Some ((if s then - inject_Z (Zpos m) else inject_Z (Zpos m)) * pow2 e)%Q
  | _ => None
  end.

Definition scaled (m e : Z) : float :=
  let f := Z.ldexp (PrimFloat.of_uint63 (Uint63.of_Z (Z.abs m))) e in
  if (m <? 0)%Z then PrimFloat.opp f else f.

Definition sameNumber (f : float) (q : Q) : bool :=
  match binary64 f with
  | Some x => Qeq_bool x q
  | None => false
  end.

(** The three operations on two floats, compared with the model on the
    rationals the floats denote. *)
Definition agreeOn (a b : float) : bool :=
  match binary64 a, binary64 b with
  | Some x, Some y =>
      sameNumber (PrimFloat.add a b) (add x y)
      && sameNumber (PrimFloat.sub a b) (sub x y)
      && sameNumber (PrimFloat.mul a b) (mul x y)
  | _, _ => false
  end.

(** The quotient of two floats is the double nearest to the quotient of
    what they denote: this is how a decimal literal is read. *)
Definition agreeOnRatio (n d : Z) : bool :=
  sameNumber (PrimFloat.div (scaled n 0) (scaled d 0)) (double (inject_Z n / inject_Z d)).

(** *** An integer inside a template literal

    [Number::toString] prints the shortest decimal digits [s] (there are [k]
    of them) that read back as the same double, with the decimal exponent
    [n] of the value: the digits followed by [n - k] zeros up to [n = 21],
    and [d.ddde+x] from there on. *)
Definition decimalText (z : Z) : string := NilEmpty.string_of_int (Z.to_int z).

(** The digits [s], their number [k] and the exponent [n] of the integer
    double [v] of [n] decimal digits, looked for from [k] digits on. Of two
    candidates with [k] digits the one nearer to [v] is taken, the even one
    when they are as near. *)
Fixpoint shortest (fuel : nat) (k : Z) (v n : Z) : Z * Z * Z :=
  match fuel with
  | O => (v, n, n)
  | S fuel' =>
      let p := (10 ^ (n - k))%Z in
      let lo := (v / p)%Z in
      let hi := (lo + 1)%Z in
      let okLo := Qeq_bool (double (inject_Z (lo * p))) (inject_Z v) in
      let okHi := Qeq_bool (double (inject_Z (hi * p))) (inject_Z v) in
      let up := if (hi =? 10 ^ k)%Z then ((10 ^ (k - 1))%Z, k, (n + 1)%Z)
                else (hi, k, n) in
      let down := (lo, k, n) in
      match okLo, okHi with
      | true, true =>
          match (v - lo * p ?= hi * p - v)%Z with
          | Lt => down
          | Gt => up
          | Eq => if Z.even lo then down else up
          end
      | true, false => down
      | false, true => up
      | false, false => shortest fuel' (k + 1)%Z v n
      end
  end.

Fixpoint zeros (n : nat) : string :=
  match n with
  | O => EmptyString
  | S n' => String "0" (zeros n')
  end.

(** The text of a positive integer double from [2^53] on. *)
Definition largeText (v : Z) : string :=
  let '(s, k, n) := shortest 17 1 v (Z.of_nat (String.length (decimalText v))) in
  if (n <=? 21)%Z then decimalText s ++ zeros (Z.to_nat (n - k))
  else
    match decimalText s with
    | String d EmptyString => String d "e+" ++ decimalText (n - 1)
    | String d rest => String d ("." ++ rest) ++ "e+" ++ decimalText (n - 1)
    | EmptyString => EmptyString
    end.

(** The text of the number an integer stands for. Below [2^53] in
    magnitude every integer is a double and is printed digit by digit; any
    other stands for the double nearest to it, so that [10^21] is printed as
    [1e+21] and [2^60] as [1152921504606847000]. *)
Definition numberText (z : Z) : string :=
  if (Z.abs z <? 2 ^ 53)%Z then decimalText z
  else
    let v := Qfloor (double (inject_Z (Z.abs z))) in
    if (z <? 0)%Z then "-" ++ largeText v else largeText v.

(** [s.replace(pattern, replacement)] for a pattern that is a string and a
    replacement without dollar signs: the first occurrence is replaced. *)
Fixpoint dropChars (n : nat) (s : string) : string :=
  match n, s with
  | S n', String _ s' => dropChars n' s'
  | _, _ => s
  end.

Fixpoint replaceFirst (pattern replacement s : string) : string :=
  if String.prefix pattern s
  then replacement ++ dropChars (String.length pattern) s
  else match s with
       | EmptyString => EmptyString
       | String c s' => String c (replaceFirst pattern replacement s')
       end.

End JS.

(** ** Shared types ([portal/src/types/index.ts]) and the network *)

Module Types.

Record SearchResult := {
id : string;
title : string;
excerpt : string;
department : string;
docType : string;
source : string;
pageNumber : Z;
lastUpdated : string;
score : Q
}.

Record Citation := {
docId : string;
docTitle : string;
cit_pageNumber : Z;
cit_excerpt : string
}.

Inductive ChatRole := user | assistant.

Record ChatMessage := {
msg_id : string;
role : ChatRole;
content : string;
citations : option (list Citation);
timestamp : string
}.

End Types.
Export Types.

(** What [await fetch(...)] followed by [await res.json()] can do: the
    promise rejects, or it resolves to a response with its [ok] flag whose
    body either parses to [A] ([Some]) or makes [json()] throw ([None]). *)
Inductive FetchOutcome (A : Type) :=
| FetchRejects
| FetchResolves (ok : bool) (json : option A).
Arguments FetchRejects {A}.
Arguments FetchResolves {A} ok json.

(** The body of the request to the search index. *)
Record AzureBody := {
  search : string;
  top : nat;
  queryType : string;
  semanticConfiguration : string;
  queryLanguage : string;
  select : string;
  filter : option string
}.

Record SearchFetch := {
  search_url : string;
  search_api_key : string;
  search_body : AzureBody
}.

Inductive MessageRole := RoleSystem | RoleUser | RoleAssistant.

Record ModelMessage := {
  m_role : MessageRole;
  m_content : string
}.

(** The body of the request to the chat-completion deployment. *)
Record CompletionBody := {
  messages : list ModelMessage;
  max_tokens : nat;
  temperature : Q
}.

Record ChatFetch := {
  chat_url : string;
  chat_api_key : string;
  chat_body : CompletionBody
}.

(** A request that left the portal: to the search index or to the model. *)
Inductive NetCall :=
| SearchCall (r : SearchFetch)
| ChatCall (r : ChatFetch).

Definition is_search_call (c : NetCall) : bool :=
  match c with SearchCall _ => true | ChatCall _ => false end.

Definition is_chat_call (c : NetCall) : bool :=
  match c with SearchCall _ => false | ChatCall _ => true end.

(** ** /api/search *)

Module SearchRoute.

Record SearchRequestBody := {
  body_query : option string;
  body_department : option string;
  body_docType : option string
}.

Record Env := {
  AZURE_SEARCH_ENDPOINT : option string;
  AZURE_SEARCH_KEY : option string;
  AZURE_SEARCH_INDEX : option string
}.

Record SearchResponse := {
  results : list SearchResult;
  resp_source : string
}.

Definition configured (env : Env) : bool :=
  JS.truthy (AZURE_SEARCH_ENDPOINT env) && JS.truthy (AZURE_SEARCH_KEY env).

Definition azureUrl (env : Env) : string :=
  let index := JS.nullish (AZURE_SEARCH_INDEX env) "res-hr-index" in
  JS.env_text (AZURE_SEARCH_ENDPOINT env) ++ "/indexes/" ++ index
    ++ "/docs/search?api-version=2023-11-01".

Definition azureBody (query department : string) : AzureBody :=
  {| search := query;
     top := 10;
     queryType := "semantic";
     semanticConfiguration := "default";
     queryLanguage := "en-US";
     select := "id,title,excerpt,department,docType,source,pageNumber,lastUpdated";
     filter := if department =? "All" then None
               else Some ("department eq '" ++ department ++ "'") |}.

Definition azureRequest (env : Env) (query department : string) : SearchFetch :=
  {| search_url := azureUrl env;
     search_api_key := JS.env_text (AZURE_SEARCH_KEY env);
     search_body := azureBody query department |}.

(** The text a result is matched against, and the number of query terms
    it contains. *)
Definition resultText (r : SearchResult) : string :=
  JS.toLowerCase (title r ++ " " ++ excerpt r ++ " " ++ source r).

Definition termMatches (terms : list string) (r : SearchResult) : nat :=
  List.length (List.filter (fun t => JS.includes (resultText r) t) terms).

Definition with_score (r : SearchResult) (s : Q) : SearchResult :=
  {| id := id r; title := title r; excerpt := excerpt r;
     department := department r; docType := docType r; source := source r;
     pageNumber := pageNumber r; lastUpdated := lastUpdated r; score := s |}.

Definition boost (terms : list string) (r : SearchResult) : SearchResult :=
  with_score r
    (JS.Math_min 1 (score r + inject_Z (Z.of_nat (termMatches terms r)) * (2 # 100))%Q).

(** The comparator [(a, b) => b.score - a.score]. *)
Definition byScoreDesc (a b : SearchResult) : Q := (score b - score a)%Q.

Section Handler.
(** [mockSearchResults] of [@/lib/mock-data]. *)
Variable mockSearchResults : list SearchResult.

(** Mock mode: filter and score locally. *)
Definition mockResults (query department docType : string) : list SearchResult :=
  let results := mockSearchResults in
  let results :=
    if negb (department =? "All")
    then List.filter (fun r => Types.department r =? department) results
    else results in
  let results :=
    if negb (docType =? "All")
    then List.filter (fun r => Types.docType r =? docType) results
    else results in
  if negb (query =? "")
  then
    let terms := JS.split_ws (JS.toLowerCase query) in
    JS.sort byScoreDesc (map (boost terms) results)
  else results.

Definition POST (env : Env)
    (fetch : SearchFetch -> FetchOutcome (list SearchResult))
    (body : SearchRequestBody) : SearchResponse * list NetCall :=
  let query := JS.nullish (body_query body) "" in
  let department := JS.nullish (body_department body) "All" in
  let docType := JS.nullish (body_docType body) "All" in
  let mock := {| results := mockResults query department docType;
                 resp_source := "mock" |} in
  if configured env then
    let req := azureRequest env query department in
    match fetch req with
    | FetchResolves true (Some value) =>
        ({| results := value; resp_source := "azure" |}, [SearchCall req])
    | _ => (mock, [SearchCall req])
    end
  else (mock, []).
End Handler.

End SearchRoute.

(** ** /api/search, the scores computed as doubles

    The mock branch of the same handler with the arithmetic of the code:
    [r.score + termMatches * 0.02] is a product and a sum of doubles, the
    literal [0.02] is the double nearest to 2/100, and the comparator
    subtracts doubles. An array length is an integer below [2^32] and so a
    double as it is. The request, the environment and the index call are
    those of [SearchRoute]. *)
Module SearchRouteIEEE.

Definition boost (terms : list string) (r : SearchResult) : SearchResult :=
  SearchRoute.with_score r
    (JS.Math_min 1
       (JS.add (score r)
          (JS.mul (inject_Z (Z.of_nat (SearchRoute.termMatches terms r)))
                  (JS.double (2 # 100))))).

(** The comparator [(a, b) => b.score - a.score]. *)
Definition byScoreDesc (a b : SearchResult) : Q := JS.sub (score b) (score a).

Section Handler.
(** [mockSearchResults] of [@/lib/mock-data]. *)
Variable mockSearchResults : list SearchResult.

Definition mockResults (query department docType : string) : list SearchResult :=
  let results := mockSearchResults in
  let results :=
    if negb (department =? "All")
    then List.filter (fun r => Types.department r =? department) results
    else results in
  let results :=
    if negb (docType =? "All")
    then List.filter (fun r => Types.docType r =? docType) results
    else results in
  if negb (query =? "")
  then
    let terms := JS.split_ws (JS.toLowerCase query) in
    JS.sort byScoreDesc (map (boost terms) results)
  else results.

Definition POST (env : SearchRoute.Env)
    (fetch : SearchFetch -> FetchOutcome (list SearchResult))
    (body : SearchRoute.SearchRequestBody)
  : SearchRoute.SearchResponse * list NetCall :=
  let query := JS.nullish (SearchRoute.body_query body) "" in
  let department := JS.nullish (SearchRoute.body_department body) "All" in
  let docType := JS.nullish (SearchRoute.body_docType body) "All" in
  let mock := {| SearchRoute.results := mockResults query department docType;
                 SearchRoute.resp_source := "mock" |} in
  if SearchRoute.configured env then
    let req := SearchRoute.azureRequest env query department in
    match fetch req with
    | FetchResolves true (Some value) =>
        ({| SearchRoute.results := value; SearchRoute.resp_source := "azure" |},
         [SearchCall req])
    | _ => (mock, [SearchCall req])
    end
  else (mock, []).
End Handler.

End SearchRouteIEEE.


(** ** /api/chat *)

Module ChatRoute.

Record ChatRequestBody := {
  message : string;
  history : option (list ChatMessage)
}.

Record Env := {
  AZURE_OPENAI_ENDPOINT : option string;
  AZURE_OPENAI_KEY : option string;
  AZURE_OPENAI_DEPLOYMENT : option string
}.

Record ChatResponse := {
  response : string;
  resp_citations : list Citation;
  resp_source : string
}.

(** The declared shape of a completion: [{ choices: Array<{ message:
    { content } }> }], each level read through optional chaining. *)
Record ChoiceMessage := { choice_content : option string }.
Record Choice := { choice_message : option ChoiceMessage }.
Record CompletionData := { choices : list Choice }.

Definition configured (env : Env) : bool :=
  JS.truthy (AZURE_OPENAI_ENDPOINT env) && JS.truthy (AZURE_OPENAI_KEY env).

Definition completionUrl (env : Env) : string :=
  let deployment := JS.nullish (AZURE_OPENAI_DEPLOYMENT env) "gpt-4o" in
  JS.env_text (AZURE_OPENAI_ENDPOINT env) ++ "/openai/deployments/" ++ deployment
    ++ "/chat/completions?api-version=2024-02-01".

Definition systemPrompt : string :=
  "You are the HR assistant for RES LLC, an internal AI-powered knowledge base assistant.
Your role is to help employees find information about HR policies, benefits, time off, expenses, and company procedures.
Always be helpful, professional, and accurate. When citing information, mention the source document and page number.
If you don't know something, direct employees to contact HR at hr@res-llc.com or IT at it@res-llc.com.".

Definition role_of (r : ChatRole) : MessageRole :=
  match r with
  | user => RoleUser
  | assistant => RoleAssistant
  end.

(** [(m) => ({ role: m.role, content: m.content })]. *)
Definition forwarded (m : ChatMessage) : ModelMessage :=
  {| m_role := role_of (role m); m_content := content m |}.

Definition buildMessages (message : string) (history : list ChatMessage)
  : list ModelMessage :=
  {| m_role := RoleSystem; m_content := systemPrompt |}
    :: (map forwarded (JS.slice (-6) history)
        ++ [ {| m_role := RoleUser; m_content := message |} ])%list.

Definition completionRequest (env : Env) (message : string)
    (history : list ChatMessage) : ChatFetch :=
  {| chat_url := completionUrl env;
     chat_api_key := JS.env_text (AZURE_OPENAI_KEY env);
     chat_body := {| messages := buildMessages message history;
                     max_tokens := 800;
                     temperature := 3 # 10 |} |}.

(** [data.choices[0]?.message?.content ?? ""]. *)
Definition firstContent (data : CompletionData) : string :=
  match choices data with
  | [] => ""
  | c :: _ =>
      match choice_message c with
      | None => ""
      | Some m => JS.nullish (choice_content m) ""
      end
  end.

Section Handler.
(** [getMockChatResponse] of [@/lib/mock-data]. *)
Variable getMockChatResponse : string -> string * list Citation.

(** The simulated latency of mock mode ([setTimeout], 600 ms) has no
    effect on the response and is left out. *)
Definition POST (env : Env)
    (fetch : ChatFetch -> FetchOutcome CompletionData)
    (body : ChatRequestBody) : ChatResponse * list NetCall :=
  let message := message body in
  let history := JS.nullish (history body) [] in
  let mock :=
    let '(response, citations) := getMockChatResponse message in
    {| response := response; resp_citations := citations; resp_source := "mock" |} in
  if configured env then
    let req := completionRequest env message history in
    match fetch req with
    | FetchResolves true (Some data) =>
        ({| response := firstContent data;
            resp_citations := [];
            resp_source := "azure" |}, [ChatCall req])
    | _ => (mock, [ChatCall req])
    end
  else (mock, []).
End Handler.

End ChatRoute.


(** ** The indexing side: chunk identity and the index writer *)

Module Ingestion.

(** Modelled from the spec: the indexing pipeline (Chunker, Embedder,
    IndexWriter, ChangeFeedSync) is not among the portal sources.  The
    records and functions of this module follow sections 3, 4.1, 4.4 and 4.5
    of the specification: the observed document, the extracted page, the
    chunk with its twelve fields, a chunk id computed from the document id,
    the page number and the sequence number, an upsert that replaces the
    whole record stored under a chunk id, and the removal of the chunk ids
    of a document that its new chunk set no longer has. *)
Record SourceDocument := {
  documentId : string;
  libraryId : string;
  versionToken : string;
  modifiedAt : string;
  deleted : bool
}.

(** Modelled from the spec: the ExtractedPage of section 3, one shape for
    both extraction methods. *)
Record ExtractedPage := {
  page_documentId : string;
  page_pageNumber : nat;
  page_text : string;
  confidence : Q;
  extractionMethod : string
}.

(** Modelled from the spec: a window cut by the Chunker (section 4.4),
    before it is given an id and a vector. *)
Record Passage := {
  passage_pageNumber : nat;
  passage_sectionHeading : string;
  passage_text : string
}.

(** Modelled from the spec: the [documentMeta] argument of the Chunker. *)
Record DocumentMeta := {
  documentTitle : string;
  sourceUrl : string;
  meta_department : string;
  meta_docType : string
}.

(** Modelled from the spec: the Chunk of section 3, the atomic indexed
    unit. *)
Record Chunk := {
  chunkId : string;
  chunk_documentId : string;
  chunk_documentTitle : string;
  chunk_sourceUrl : string;
  chunk_pageNumber : nat;
  sectionHeading : string;
  text : string;
  vector : list Q;
  chunk_department : string;
  chunk_docType : string;
  lastModified : string;
  groupIds : list string
}.

(** Modelled from the spec: the search index as the IndexWriter sees it,
    the stored records in the order they were first written. *)
Definition Index := list Chunk.

(** Modelled from the spec: the key comparison of the index, on
    [chunkId]. *)
Definition same_id (c e : Chunk) : bool := chunkId e =? chunkId c.

(** Modelled from the spec: what the stored record [e] becomes when [c] is
    written, a full-record replace when the ids agree. *)
Definition overwrite (c e : Chunk) : Chunk := if same_id c e then c else e.

(** Modelled from the spec: IndexWriter's upsert (section 4.5), a
    full-record replace keyed by [chunkId]; a new id is added. *)
Definition upsert (c : Chunk) (idx : Index) : Index :=
  if existsb (same_id c) idx
  then map (overwrite c) idx
  else (idx ++ [c])%list.

(** Modelled from the spec: [upsert(chunks)], the chunks written in
    order. *)
Definition upsertAll (cs : list Chunk) (idx : Index) : Index :=
  fold_left (fun i c => upsert c i) cs idx.

(** Modelled from the spec: what a stored record becomes when the chunks
    [cs] are written over it one after the other. *)
Definition overwriteAll (cs : list Chunk) (e : Chunk) : Chunk :=
  fold_left (fun e c => overwrite c e) cs e.

(** Modelled from the spec: IndexWriter's clean-up for a document that
    shrinks (section 4.5). A stored record is stale when it belongs to the
    document and its id is not in the new chunk set. *)
Definition stale (doc : string) (ids : list string) (e : Chunk) : bool :=
  (chunk_documentId e =? doc) && negb (existsb (String.eqb (chunkId e)) ids).

(** Modelled from the spec: the stale records of a document are
    deleted. *)
Definition deleteStale (doc : string) (ids : list string) (idx : Index) : Index :=
  List.filter (fun e => negb (stale doc ids e)) idx.

(** Modelled from the spec: [deleteByDocument(documentId)], every record
    of the document is deleted. *)
Definition deleteByDocument (doc : string) (idx : Index) : Index :=
  deleteStale doc [] idx.

Section Pipeline.
(** Modelled from the spec: the collaborators of one ingestion run, each a
    function of its input for an unchanged document version: the chunk id
    scheme, text extraction, the document's metadata, the chunker's windows,
    the embedding and the resolved group ids. *)
Variable mkChunkId : string -> nat -> nat -> string.
Variable extract : SourceDocument -> list ExtractedPage.
Variable metaOf : SourceDocument -> DocumentMeta.
Variable windows : list ExtractedPage -> list Passage.
Variable embed : string -> list Q.
Variable resolve : string -> list string.

(** Modelled from the spec: the chunk made from the [seq]-th passage of a
    document, its id computed from the document id, the page number and the
    sequence number (section 3). *)
Definition mkChunk (d : SourceDocument) (seq : nat) (p : Passage) : Chunk :=
  {| chunkId := mkChunkId (documentId d) (passage_pageNumber p) seq;
     chunk_documentId := documentId d;
     chunk_documentTitle := documentTitle (metaOf d);
     chunk_sourceUrl := sourceUrl (metaOf d);
     chunk_pageNumber := passage_pageNumber p;
     sectionHeading := passage_sectionHeading p;
     text := passage_text p;
     vector := embed (passage_text p);
     chunk_department := meta_department (metaOf d);
     chunk_docType := meta_docType (metaOf d);
     lastModified := modifiedAt d;
     groupIds := resolve (documentId d) |}.

(** Modelled from the spec: sequence numbers follow the order of the
    chunker's output, from [seq] on. *)
Fixpoint number (d : SourceDocument) (seq : nat) (ps : list Passage) : list Chunk :=
  match ps with
  | [] => []
  | p :: ps' => mkChunk d seq p :: number d (S seq) ps'
  end.

(** Modelled from the spec: Chunker and Embedder (sections 4.4 and 4.5),
    the chunks of a document version, numbered in the order they are cut. *)
Definition chunk (d : SourceDocument) : list Chunk :=
  number d 0 (windows (extract d)).

(** Modelled from the spec: one item of a ChangeFeedSync cycle (section
    4.1). A deleted document loses its chunks; any other is chunked,
    upserted, and cleared of stale chunk ids. *)
Definition ingest (d : SourceDocument) (idx : Index) : Index :=
  if deleted d then deleteByDocument (documentId d) idx
  else
    let cs := chunk d in
    deleteStale (documentId d) (map chunkId cs) (upsertAll cs idx).
End Pipeline.

End Ingestion.


(** ** Reading the claims on the search route *)

(** Two results describe the same document when they agree on every field
    but the score. *)
Definition sameDocument (r r0 : SearchResult) : Prop :=
  id r = id r0 /\ title r = title r0 /\ excerpt r = excerpt r0 /\
  department r = department r0 /\ docType r = docType r0 /\
  source r = source r0 /\ pageNumber r = pageNumber r0 /\
  lastUpdated r = lastUpdated r0.

(** The number of terms that occur, case-insensitively, in the title, in the
    excerpt or in the source of a result, each field taken on its own. *)
Definition termsOccurringInFields (terms : list string) (r : SearchResult) : nat :=
  List.length
    (List.filter
       (fun t => JS.includes (JS.toLowerCase (title r)) t
                 || JS.includes (JS.toLowerCase (excerpt r)) t
                 || JS.includes (JS.toLowerCase (source r)) t)
       terms).

(** The request fields after their destructuring defaults, and the two
    components of what the search handler returns. *)
Definition queryOf (body : SearchRoute.SearchRequestBody) : string :=
  JS.nullish (SearchRoute.body_query body) "".

Definition departmentOf (body : SearchRoute.SearchRequestBody) : string :=
  JS.nullish (SearchRoute.body_department body) "All".

Definition docTypeOf (body : SearchRoute.SearchRequestBody) : string :=
  JS.nullish (SearchRoute.body_docType body) "All".

Definition searchTerms (body : SearchRoute.SearchRequestBody) : list string :=
  JS.split_ws (JS.toLowerCase (queryOf body)).

(** The score the claim describes: the base score plus 0.02 for each term
    found in a field, capped at 1, the product and the sum being those of
    doubles. *)
Definition boostedScore (terms : list string) (r0 : SearchResult) : Q :=
  JS.Math_min 1
    (JS.add (score r0)
       (JS.mul (inject_Z (Z.of_nat (termsOccurringInFields terms r0)))
               (JS.double (2 # 100)))).

(** The doubles are multiples of [2^-1074]. *)
Definition onGrid (q : Q) : Prop :=
  exists k : Z, (q == inject_Z k * JS.pow2 (-1074))%Q.

(** A mock result whose score is written as the decimal [score r] holds
    the double nearest to it. *)
Definition asWritten (r : SearchResult) : SearchResult :=
  SearchRoute.with_score r (JS.double (score r)).

(** ** Reading the claims on the chat route *)

Definition historyOf (body : ChatRoute.ChatRequestBody) : list ChatMessage :=
  JS.nullish (ChatRoute.history body) [].

(** ** The chat panel ([components/chat/ChatPanel.tsx]) *)

Module ChatPanel.

(** One reading of the clock: [Date.now()] as it prints, and [new Date()]
    as it is serialised. *)
Record Tick := { millis : string; date : string }.

(** The state of the component: [messages], [input] and [loading]. *)
Record State := {
  messages : list ChatMessage;
  input : string;
  loading : bool
}.

(** The body of a response of /api/chat as the panel reads it. *)
Record ChatReply := {
  reply_response : string;
  reply_citations : list Citation
}.

Definition welcome (t : Tick) : ChatMessage :=
  {| msg_id := "welcome";
     role := assistant;
     content := "Hi! I'm RES AI, your company knowledge base assistant. I can help you find procedures, understand contracts, locate policies, and walk you through how-to guides.";
     citations := None;
     timestamp := date t |}.

Definition initial (t : Tick) : State :=
  {| messages := [welcome t]; input := ""; loading := false |}.

Definition userMessage (t : Tick) (text : string) : ChatMessage :=
  {| msg_id := "user-" ++ millis t;
     role := user;
     content := JS.trim text;
     citations := None;
     timestamp := date t |}.

Definition assistantMessage (t : Tick) (data : ChatReply) : ChatMessage :=
  {| msg_id := "assistant-" ++ millis t;
     role := assistant;
     content := reply_response data;
     citations := Some (reply_citations data);
     timestamp := date t |}.

Definition errorMessage (t : Tick) : ChatMessage :=
  {| msg_id := "error-" ++ millis t;
     role := assistant;
     content := "Sorry, I encountered an error. Please try again or contact the appropriate team directly.";
     citations := None;
     timestamp := date t |}.

(** [sendMessage] up to its [await]: nothing happens for a blank text or
    while a request is pending; otherwise the user message is appended, the
    input is cleared, [loading] is set, and the request leaves with the
    messages of the render the callback was made in. *)
Definition sendStart (t : Tick) (text : string) (st : State)
  : option (State * ChatRoute.ChatRequestBody) :=
  if (JS.trim text =? "") || loading st then None
  else Some ({| messages := (messages st ++ [userMessage t text])%list;
                input := "";
                loading := true |},
             {| ChatRoute.message := JS.trim text;
                ChatRoute.history := Some (messages st) |}).

(** [sendMessage] after its [await]: the answer, or the apology of the
    [catch] branch, is appended and [loading] is reset.  The status of the
    response is not looked at. *)
Definition settle (t : Tick) (outcome : FetchOutcome ChatReply) (st : State) : State :=
  {| messages := (messages st
                  ++ [ match outcome with
                       | FetchResolves _ (Some data) => assistantMessage t data
                       | _ => errorMessage t
                       end ])%list;
     input := input st;
     loading := false |}.

(** One run of [sendMessage] from start to end, with the requests it
    made. *)
Definition sendMessage (server : ChatRoute.ChatRequestBody -> FetchOutcome ChatReply)
    (t1 t2 : Tick) (text : string) (st : State)
  : State * list ChatRoute.ChatRequestBody :=
  match sendStart t1 text st with
  | None => (st, [])
  | Some (st1, req) => (settle t2 (server req) st1, [req])
  end.

(** [handleSubmit]: the text of the input field is sent. *)
Definition handleSubmit (server : ChatRoute.ChatRequestBody -> FetchOutcome ChatReply)
    (t1 t2 : Tick) (st : State) : State * list ChatRoute.ChatRequestBody :=
  sendMessage server t1 t2 (input st) st.

(** The send button: [disabled={loading || !input.trim()}]. *)
Definition submitDisabled (st : State) : bool :=
  loading st || (JS.trim (input st) =? "").

(** The suggested prompts: [messages.length === 1]. *)
Definition showsPrompts (st : State) : bool :=
  (List.length (messages st) =? 1)%nat.

(** The Sources block of a bubble:
    [message.citations && message.citations.length > 0]. *)
Definition showsSources (m : ChatMessage) : bool :=
  match citations m with
  | Some (_ :: _) => true
  | _ => false
  end.

(** The link of a citation card:
    [/docs/${citation.docId}?page=${citation.pageNumber}]. *)
Definition citationHref (c : Citation) : string :=
  "/docs/" ++ docId c ++ "?page=" ++ JS.numberText (cit_pageNumber c).

(** One use of the panel: a text sent at two clock readings against a
    server. *)
Record Send := {
  send_server : ChatRoute.ChatRequestBody -> FetchOutcome ChatReply;
  send_start : Tick;
  send_end : Tick;
  send_text : string
}.

Definition after (sends : list Send) (st : State) : State :=
  fold_left
    (fun st e => fst (sendMessage (send_server e) (send_start e) (send_end e)
                        (send_text e) st))
    sends st.

(** The properties of the component the opening effect reads. *)
Record Props := {
  open : bool;
  initialQuery : option string
}.

(** The effect on [open], [initialQuery] and [sendMessage]: an open panel
    sends the initial query unless the ref [initialQuerySent], here [sent],
    is already set, and sets it. *)
Definition openEffect (server : ChatRoute.ChatRequestBody -> FetchOutcome ChatReply)
    (t1 t2 : Tick) (props : Props) (sent : bool) (st : State)
  : bool * (State * list ChatRoute.ChatRequestBody) :=
  if open props then
    if JS.truthy (initialQuery props) && negb sent
    then (true, sendMessage server t1 t2 (JS.nullish (initialQuery props) "") st)
    else (sent, (st, []))
  else (sent, (st, [])).

(** One run of the effect. *)
Record Run := {
  run_server : ChatRoute.ChatRequestBody -> FetchOutcome ChatReply;
  run_start : Tick;
  run_end : Tick;
  run_props : Props
}.

(** The requests made by a series of runs of the effect, from the ref
    [sent] and the state [st]. *)
Fixpoint effectRequests (runs : list Run) (sent : bool) (st : State)
  : list ChatRoute.ChatRequestBody :=
  match runs with
  | [] => []
  | r :: runs' =>
      let out := openEffect (run_server r) (run_start r) (run_end r)
                   (run_props r) sent st in
      (snd (snd out) ++ effectRequests runs' (fst out) (fst (snd out)))%list
  end.

(** The route handler behind the panel's [fetch("/api/chat")]: the
    handler's JSON is the body of an OK response. *)
Definition routeServer (getMockChatResponse : string -> string * list Citation)
    (env : ChatRoute.Env)
    (fetch : ChatFetch -> FetchOutcome ChatRoute.CompletionData)
  : ChatRoute.ChatRequestBody -> FetchOutcome ChatReply :=
  fun body =>
    let r := fst (ChatRoute.POST getMockChatResponse env fetch body) in
    FetchResolves true
      (Some {| reply_response := ChatRoute.response r;
               reply_citations := ChatRoute.resp_citations r |}).

End ChatPanel.

(** Speakers take turns, starting with [who]. *)
Fixpoint takesTurns (who : ChatRole) (l : list ChatMessage) : bool :=
  match l with
  | [] => true
  | m :: l' =>
      match who, role m with
      | assistant, assistant => takesTurns user l'
      | user, user => takesTurns assistant l'
      | _, _ => false
      end
  end.

(** What every reachable state of the panel satisfies. *)
Definition settled (t0 : ChatPanel.Tick) (st : ChatPanel.State) : Prop :=
  ChatPanel.loading st = false
  /\ Nat.even (List.length (ChatPanel.messages st)) = false
  /\ takesTurns assistant (ChatPanel.messages st) = true
  /\ hd_error (ChatPanel.messages st) = Some (ChatPanel.welcome t0).

(** ** Pages of the portal *)

(** The [Document] of [types/index.ts]. *)
Record Document := {
  doc_id : string;
  doc_title : string;
  doc_department : string;
  category : string;
  description : string;
  fileSize : string;
  doc_lastUpdated : string;
  pageCount : Z;
  tags : list string
}.

(** The home page ([app/page.tsx]) and the navigation bar. *)
Module HomePage.

(** [handleHeroSearch]: the URL pushed to the router, if any. *)
Definition handleHeroSearch (heroQuery : string) : option string :=
  if negb (JS.trim heroQuery =? "")
  then Some ("/search?q=" ++ JS.encodeURIComponent (JS.trim heroQuery))
  else None.

(** [handleAskAI]: the chat query after the click. *)
Definition handleAskAI (heroQuery : string) (chatQuery : option string)
  : option string :=
  if negb (JS.trim heroQuery =? "") then Some (JS.trim heroQuery) else chatQuery.

Section Departments.
(** [mockDocuments] of [@/lib/mock-data]. *)
Variable mockDocuments : list Document.

(** The [docs] of a department card, the documents it lists
    ([dept.docs.slice(0, 3)]) and whether it offers "View all"
    ([dept.docs.length > 3]). *)
Definition docs (dept : string) : list Document :=
  List.filter (fun d => doc_department d =? dept) mockDocuments.

Definition listed (dept : string) : list Document :=
  JS.slice_range 0 3 (docs dept).

Definition viewAll (dept : string) : bool :=
  (3 <? List.length (docs dept))%nat.
End Departments.

End HomePage.

(** [handleSearch] of the navigation bar ([Navbar.tsx]). *)
Module Navbar.

Definition handleSearch (query : string) : option string :=
  if negb (JS.trim query =? "")
  then Some ("/search?q=" ++ JS.encodeURIComponent (JS.trim query))
  else None.

End Navbar.

(** The search page. *)
Module SearchPage.

Definition DEPARTMENTS : list string :=
  ["All"; "HR"; "Operations"; "Finance"; "Legal"].

Definition DOC_TYPES : list string :=
  ["All"; "Policy"; "Benefits"; "Reference"; "IT"; "Safety"; "Compliance"].

(** [params.get("q") ?? ""] and [params.get("dept") ?? "All"] for the URL
    the page was opened with. *)
Definition initialQ (url : string) : string :=
  JS.nullish (JS.searchParamsGet "q" url) "".

Definition initialDept (url : string) : string :=
  JS.nullish (JS.searchParamsGet "dept" url) "All".

(** The state the claims and the display depend on. *)
Record State := {
  query : string;
  inputValue : string;
  results : list SearchResult;
  loading : bool;
  dept : string;
  docType : string
}.

(** [doSearch]: the three fields are always sent; a body that can be read
    replaces the results, anything else empties them. *)
Definition doSearch
    (server : SearchRoute.SearchRequestBody -> FetchOutcome (list SearchResult))
    (q department type : string) (st : State)
  : State * list SearchRoute.SearchRequestBody :=
  let req := {| SearchRoute.body_query := Some q;
                SearchRoute.body_department := Some department;
                SearchRoute.body_docType := Some type |} in
  ({| query := query st;
      inputValue := inputValue st;
      results := match server req with
                 | FetchResolves _ (Some data) => data
                 | _ => []
                 end;
      loading := false;
      dept := dept st;
      docType := docType st |}, [req]).

(** The effect that searches: [if (query || initialDept !== "All")]. *)
Definition searches (q initialDept : string) : bool :=
  negb (q =? "") || negb (initialDept =? "All").

(** The state of a page that has just been mounted on [url]: the initial
    values of its [useState] calls. *)
Definition mount (url : string) : State :=
  {| query := initialQ url;
     inputValue := initialQ url;
     results := [];
     loading := false;
     dept := initialDept url;
     docType := "All" |}.

(** The first run of the effect, after the mount:
    [if (query || initialDept !== "All") doSearch(query, dept, docType)]. *)
Definition mountEffect
    (server : SearchRoute.SearchRequestBody -> FetchOutcome (list SearchResult))
    (url : string) : State * list SearchRoute.SearchRequestBody :=
  let st := mount url in
  if searches (query st) (initialDept url)
  then doSearch server (query st) (dept st) (docType st) st
  else (st, []).

(** [handleSearch]: the query becomes the input value and the URL is
    pushed, the input value escaped but not trimmed. *)
Definition handleSearch (st : State) : State * string :=
  ({| query := inputValue st;
      inputValue := inputValue st;
      results := results st;
      loading := loading st;
      dept := dept st;
      docType := docType st |},
   "/search?q=" ++ JS.encodeURIComponent (inputValue st)).

Definition scoreColor (score : Q) : string :=
  if Qle_bool (9 # 10) score then "text-green-600 bg-green-50"
  else if Qle_bool (8 # 10) score then "text-blue-600 bg-blue-50"
  else "text-gray-600 bg-gray-50".


(** The link "View Document" of a result. *)
Definition viewHref (r : SearchResult) : string :=
  "/docs/" ++ JS.replaceFirst "sr-" "doc-0" (id r)
    ++ "?page=" ++ JS.numberText (pageNumber r).

(** The empty state:
    [!loading && results.length === 0 && (query || dept !== "All")]. *)
Definition emptyState (st : State) : bool :=
  negb (loading st) && (List.length (results st) =? 0)%nat
  && (negb (query st =? "") || negb (dept st =? "All")).

(** The route handler behind the page's [fetch("/api/search")]. *)
Definition routeServer (mockSearchResults : list SearchResult)
    (env : SearchRoute.Env)
    (fetch : SearchFetch -> FetchOutcome (list SearchResult))
  : SearchRoute.SearchRequestBody -> FetchOutcome (list SearchResult) :=
  fun body =>
    FetchResolves true
      (Some (SearchRoute.results
               (fst (SearchRoute.POST mockSearchResults env fetch body)))).

End SearchPage.

(** The document viewer ([app/docs/[id]/page.tsx]). *)
Module DocPage.

(** Letters, digits, the hyphen and the underscore. *)
Definition routeChar (c : ascii) : bool :=
  let n := nat_of_ascii c in
  ((65 <=? n)%nat && (n <=? 90)%nat)
  || ((97 <=? n)%nat && (n <=? 122)%nat)
  || ((48 <=? n)%nat && (n <=? 57)%nat)
  || Ascii.eqb c "-" || Ascii.eqb c "_".

Inductive View :=
| NotFound
| Viewer (doc : Document) (page : string) (breadcrumb : string)
         (prompts : list string) (related : list Document).

Section Page.
(** [mockDocuments] of [@/lib/mock-data]. *)
Variable mockDocuments : list Document.

Definition related (doc : Document) : list Document :=
  JS.slice_range 0 3
    (List.filter
       (fun d => negb (doc_id d =? doc_id doc)
                 && (doc_department d =? doc_department doc))
       mockDocuments).

Definition prompts (doc : Document) : list string :=
  [ "Summarize " ++ doc_title doc;
    "What are the key points in " ++ doc_title doc ++ "?";
    "Who does " ++ doc_title doc ++ " apply to?" ].

(** The page for the path parameter [id] and the [page] parameter of the
    query string. *)
Definition DocPage (id : string) (pageParam : option string) : View :=
  let page := JS.nullish pageParam "1" in
  match List.find (fun d => doc_id d =? id) mockDocuments with
  | None => NotFound
  | Some doc =>
      Viewer doc page ("/search?dept=" ++ doc_department doc)
             (prompts doc) (related doc)
  end.
(** The route [/docs/[id]], for a URL whose path is [/docs/] and one
    segment of letters, digits, hyphens and underscores: the URL parser and
    the router hand such a segment over as it is, and it is the id. Any
    other path (more segments, dot segments, a backslash, characters that
    the parser escapes) is rewritten before the router sees it and is not
    read here: the answer is [None]. *)
Definition routeId (url : string) : option string :=
  let path := JS.urlPath url in
  if String.prefix "/docs/" path
  then
    let segment := JS.dropChars 6 path in
    if negb (segment =? "") && JS.all_chars routeChar segment
    then Some segment
    else None
  else None.

(** The page the router shows for a URL: [useParams] gives the id,
    [useSearchParams] the page. *)
Definition opened (url : string) : option View :=
  option_map (fun id => DocPage id (JS.searchParamsGet "page" url)) (routeId url).
End Page.

End DocPage.

(** ** Reading the properties of the pages *)

(** Characters that end or split a query-string value, or that the
    parser rewrites. *)
Definition splitsQuery (c : ascii) : bool :=
  existsb (Ascii.eqb c) (list_ascii_of_string "&#+").

(** Text that can stand in a path segment and in a query value as it
    is. *)
Definition quiet (c : ascii) : bool :=
  negb (existsb (Ascii.eqb c) (list_ascii_of_string "/?#%&+=")).

(** Text of ASCII characters, on which [trim] and [toLowerCase] are the
    functions of this file. *)
Definition asciiText (s : string) : bool :=
  JS.all_chars (fun c => (nat_of_ascii c <? 128)%nat) s.

(** An id that can stand as the one segment of a document route. *)
Definition routeSegment (s : string) : bool :=
  negb (s =? "") && JS.all_chars DocPage.routeChar s.


(** ** Reading further properties of the search route *)

(** A result with its score blanked, to compare lists of results up to
    their scores. *)
Definition withoutScore (r : SearchResult) : SearchResult :=
  SearchRoute.with_score r 0.

(** The results whose score is [v]. *)
Definition scored (v : Q) (r : SearchResult) : bool := Qeq_bool (score r) v.

(** The two mock filters taken together. *)
Definition meetsFilters (d t : string) (r : SearchResult) : bool :=
  ((d =? "All") || (department r =? d)) && ((t =? "All") || (docType r =? t)).

Definition withQuery (q : string) (body : SearchRoute.SearchRequestBody)
  : SearchRoute.SearchRequestBody :=
  {| SearchRoute.body_query := Some q;
     SearchRoute.body_department := SearchRoute.body_department body;
     SearchRoute.body_docType := SearchRoute.body_docType body |}.

Definition withDocType (t : option string) (body : SearchRoute.SearchRequestBody)
  : SearchRoute.SearchRequestBody :=
  {| SearchRoute.body_query := SearchRoute.body_query body;
     SearchRoute.body_department := SearchRoute.body_department body;
     SearchRoute.body_docType := t |}.

(** ** Reading further properties of the chat route *)

(** Two transcripts that agree, message by message, on who spoke and on
    what was said. *)
Definition sameTalk (h1 h2 : list ChatMessage) : Prop :=
  Forall2 (fun a b => role a = role b /\ content a = content b) h1 h2.

Definition asking (text : string) (past : list ChatMessage)
  : ChatRoute.ChatRequestBody :=
  {| ChatRoute.message := text; ChatRoute.history := Some past |}.

(** ** Fixtures: concrete environments, requests and network answers *)

Module Fixtures.

Definition searchResults : list SearchResult :=
  [ {| id := "sr-1"; title := "PTO Policy v3.2";
       excerpt := "Employees accrue paid time off each pay period.";
       department := "HR"; docType := "Policy"; source := "pto-policy.pdf";
       pageNumber := 2; lastUpdated := "2025-11-03"; score := 90 # 100 |};
    {| id := "sr-2"; title := "Expense Reimbursement Guide";
       excerpt := "Submit an expense report within 30 days.";
       department := "Finance"; docType := "Guide"; source := "expenses.pdf";
       pageNumber := 5; lastUpdated := "2025-09-14"; score := 99 # 100 |};
    {| id := "sr-3"; title := "Employee Handbook 2024";
       excerpt := "Time off requests follow the PTO policy.";
       department := "HR"; docType := "Handbook"; source := "handbook.pdf";
       pageNumber := 14; lastUpdated := "2024-01-10"; score := 80 # 100 |};
    {| id := "sr-4"; title := "VPN Setup";
       excerpt := "Install the client and sign in.";
       department := "IT"; docType := "Guide"; source := "vpn.pdf";
       pageNumber := 1; lastUpdated := "2025-02-01"; score := 85 # 100 |} ].

(** The same results, each score being the double its decimal denotes. *)
Definition searchDoubles : list SearchResult := map asWritten searchResults.

Definition searchLive : SearchRoute.Env :=
  {| SearchRoute.AZURE_SEARCH_ENDPOINT := Some "https://res-hr.search.windows.net";
     SearchRoute.AZURE_SEARCH_KEY := Some "query-key";
     SearchRoute.AZURE_SEARCH_INDEX := None |}.

Definition searchOffline : SearchRoute.Env :=
  {| SearchRoute.AZURE_SEARCH_ENDPOINT := None;
     SearchRoute.AZURE_SEARCH_KEY := None;
     SearchRoute.AZURE_SEARCH_INDEX := None |}.

(** An index that answers every query with the same stored records. *)
Definition indexAnswers (value : list SearchResult)
  : SearchFetch -> FetchOutcome (list SearchResult) :=
  fun _ => FetchResolves true (Some value).

Definition indexDown : SearchFetch -> FetchOutcome (list SearchResult) :=
  fun _ => FetchRejects.

Definition askAll (q : string) : SearchRoute.SearchRequestBody :=
  {| SearchRoute.body_query := Some q;
     SearchRoute.body_department := None;
     SearchRoute.body_docType := None |}.

Definition askIn (q dept dtype : string) : SearchRoute.SearchRequestBody :=
  {| SearchRoute.body_query := Some q;
     SearchRoute.body_department := Some dept;
     SearchRoute.body_docType := Some dtype |}.

Definition chatLive : ChatRoute.Env :=
  {| ChatRoute.AZURE_OPENAI_ENDPOINT := Some "https://res-hr.openai.azure.com";
     ChatRoute.AZURE_OPENAI_KEY := Some "model-key";
     ChatRoute.AZURE_OPENAI_DEPLOYMENT := None |}.

Definition chatOffline : ChatRoute.Env :=
  {| ChatRoute.AZURE_OPENAI_ENDPOINT := None;
     ChatRoute.AZURE_OPENAI_KEY := None;
     ChatRoute.AZURE_OPENAI_DEPLOYMENT := None |}.

(** A model that answers every request with the same text. *)
Definition modelSays (reply : string) : ChatFetch -> FetchOutcome ChatRoute.CompletionData :=
  fun _ =>
    FetchResolves true
      (Some {| ChatRoute.choices :=
                 [ {| ChatRoute.choice_message :=
                        Some {| ChatRoute.choice_content := Some reply |} |} ] |}).

(** A model that answers with no choice at all. *)
Definition modelSilent : ChatFetch -> FetchOutcome ChatRoute.CompletionData :=
  fun _ => FetchResolves true (Some {| ChatRoute.choices := [] |}).

Definition modelDown : ChatFetch -> FetchOutcome ChatRoute.CompletionData :=
  fun _ => FetchRejects.

Definition mockChat (message : string) : string * list Citation :=
  ("Here is what the handbook says.",
   [ {| docId := "doc-001"; docTitle := "Employee Handbook 2024";
        cit_pageNumber := 14; cit_excerpt := "Time off requests." |} ]).

Definition said (n : string) (who : ChatRole) (what : string) : ChatMessage :=
  {| msg_id := n; role := who; content := what; citations := None;
     timestamp := "2026-02-20T09:00:00Z" |}.

Definition longHistory : list ChatMessage :=
  [ said "1" user "first question"; said "2" assistant "first answer";
    said "3" user "second question"; said "4" assistant "second answer";
    said "5" user "third question"; said "6" assistant "third answer";
    said "7" user "fourth question"; said "8" assistant "fourth answer" ].

Definition ask (text : string) (past : list ChatMessage) : ChatRoute.ChatRequestBody :=
  {| ChatRoute.message := text; ChatRoute.history := Some past |}.

(** A two-page policy and a pipeline that cuts one passage per page. *)
Definition ptoPolicy : Ingestion.SourceDocument :=
  {| Ingestion.documentId := "pto-policy"; Ingestion.libraryId := "hr";
     Ingestion.versionToken := "v3.2"; Ingestion.modifiedAt := "2025-11-03";
     Ingestion.deleted := false |}.

Definition decimal (n : nat) : string := NilEmpty.string_of_uint (Nat.to_uint n).

Definition idScheme (doc : string) (page seq : nat) : string :=
  doc ++ "-p" ++ decimal page ++ "-c" ++ decimal seq.

Definition twoPages (d : Ingestion.SourceDocument) : list Ingestion.ExtractedPage :=
  [ {| Ingestion.page_documentId := Ingestion.documentId d;
       Ingestion.page_pageNumber := 1;
       Ingestion.page_text := "Paid time off accrues each pay period.";
       Ingestion.confidence := 1; Ingestion.extractionMethod := "native" |};
    {| Ingestion.page_documentId := Ingestion.documentId d;
       Ingestion.page_pageNumber := 2;
       Ingestion.page_text := "Unused days carry over up to five.";
       Ingestion.confidence := 1; Ingestion.extractionMethod := "native" |} ].

Definition policyMeta (_ : Ingestion.SourceDocument) : Ingestion.DocumentMeta :=
  {| Ingestion.documentTitle := "PTO Policy v3.2";
     Ingestion.sourceUrl := "https://resllc.sharepoint.com/hr/pto-policy";
     Ingestion.meta_department := "HR"; Ingestion.meta_docType := "Policy" |}.

Definition onePerPage (pages : list Ingestion.ExtractedPage) : list Ingestion.Passage :=
  map (fun p => {| Ingestion.passage_pageNumber := Ingestion.page_pageNumber p;
                   Ingestion.passage_sectionHeading := "";
                   Ingestion.passage_text := Ingestion.page_text p |}) pages.

Definition lengthVector (t : string) : list Q :=
  [inject_Z (Z.of_nat (String.length t))].

Definition groupG1 (_ : string) : list string := ["G1"].

Definition ingestPolicy : Ingestion.Index -> Ingestion.Index :=
  Ingestion.ingest idScheme twoPages policyMeta onePerPage lengthVector groupG1
    ptoPolicy.

Definition handbook (n : string) (dept : string) : Document :=
  {| doc_id := "doc-" ++ n; doc_title := "Document " ++ n;
     doc_department := dept; category := "Policy"; description := "";
     fileSize := "1 MB"; doc_lastUpdated := "2025-01-01"; pageCount := 12;
     tags := [] |}.

Definition documents : list Document :=
  [ handbook "001" "IT"; handbook "002" "Legal"; handbook "003" "IT";
    handbook "004" "Finance"; handbook "005" "IT"; handbook "006" "IT";
    handbook "007" "IT" ].

Definition idle (q department : string) : SearchPage.State :=
  {| SearchPage.query := q; SearchPage.inputValue := q;
     SearchPage.results := []; SearchPage.loading := true;
     SearchPage.dept := department; SearchPage.docType := "All" |}.

Definition noon : ChatPanel.Tick :=
  {| ChatPanel.millis := "1771578000000";
     ChatPanel.date := "2026-02-20T09:00:00.000Z" |}.

End Fixtures.


(** * Properties *)

(** ** The library functions *)

Section SortFacts.
Context {A : Type} (cmp : A -> A -> Q) (R : A -> A -> Prop).
Hypothesis cmp_front : forall x y, Qle_bool (cmp x y) 0 = true -> R x y.
Hypothesis cmp_back : forall x y, Qle_bool (cmp x y) 0 = false -> R y x.
Hypothesis R_trans : forall x y z, R x y -> R y z -> R x z.

Lemma insert_perm (x : A) (l : list A) :
  Permutation (JS.insert cmp x l) (x :: l).
Proof.
  induction l as [|y l IH]; simpl.
  - apply Permutation_refl.
  - destruct (Qle_bool (cmp x y) 0).
    + apply Permutation_refl.
    + eapply perm_trans; [apply perm_skip, IH | apply perm_swap].
Qed.

Lemma sort_perm (l : list A) : Permutation (JS.sort cmp l) l.
Proof.
  induction l as [|x l IH]; simpl.
  - constructor.
  - eapply perm_trans; [apply insert_perm | apply perm_skip, IH].
Qed.


End SortFacts.

Lemma Math_min_le_l (a b : Q) : (JS.Math_min a b <= a)%Q.
Proof.
  unfold JS.Math_min. destruct (Qle_bool a b) eqn:E.
  - apply Qle_refl.
  - destruct (Qlt_le_dec b a) as [H|H].
    + apply Qlt_le_weak, H.
    + apply Qle_bool_iff in H. congruence.
Qed.

(** A sort whose comparator is only known to order the elements that pass
    [P]. *)
Section SortFactsOn.
Context {A : Type} (cmp : A -> A -> Q) (R : A -> A -> Prop) (P : A -> Prop).
Hypothesis cmp_front : forall x y, P x -> P y -> Qle_bool (cmp x y) 0 = true -> R x y.
Hypothesis cmp_back : forall x y, P x -> P y -> Qle_bool (cmp x y) 0 = false -> R y x.
Hypothesis R_trans : forall x y z, R x y -> R y z -> R x z.

Lemma insert_sorted_on (x : A) (l : list A) :
  P x -> Forall P l -> StronglySorted R l -> StronglySorted R (JS.insert cmp x l).
Proof.
  intros Hx Hl Hs. induction Hs as [|y l Hs IH Hy]; simpl.
  - repeat constructor.
  - apply Forall_cons_iff in Hl. destruct Hl as [Py Pl].
    destruct (Qle_bool (cmp x y) 0) eqn:E.
    + constructor; [constructor; assumption|].
      constructor; [apply cmp_front; assumption|].
      eapply Forall_impl; [|exact Hy]. intros z Hz.
      eapply R_trans; [apply cmp_front; eassumption | exact Hz].
    + constructor; [apply IH, Pl|].
      eapply Permutation_Forall; [apply Permutation_sym, insert_perm|].
      constructor; [apply cmp_back; assumption | exact Hy].
Qed.

Lemma sort_sorted_on (l : list A) :
  Forall P l -> StronglySorted R (JS.sort cmp l).
Proof.
  induction l as [|x l IH]; intros Hl; simpl.
  - constructor.
  - apply Forall_cons_iff in Hl. destruct Hl as [Px Pl].
    apply insert_sorted_on; [exact Px | | apply IH, Pl].
    eapply Permutation_Forall; [apply Permutation_sym, sort_perm | exact Pl].
Qed.
End SortFactsOn.

(** ** Doubles *)

Module NumberFacts.

Lemma pow2_pos e : (0 < JS.pow2 e)%Q.
Proof. apply Qpower_0_lt. reflexivity. Qed.

Lemma pow2_add a b : (JS.pow2 (a + b) == JS.pow2 a * JS.pow2 b)%Q.
Proof. apply Qpower_plus. discriminate. Qed.

Lemma pow2_le a b : (a <= b)%Z -> (JS.pow2 a <= JS.pow2 b)%Q.
Proof. intros H. apply Qpower_le_compat_l; [exact H | discriminate]. Qed.

Lemma pow2_Z e : (0 <= e)%Z -> (JS.pow2 e == inject_Z (2 ^ e))%Q.
Proof. intros H. symmetry. apply (Zpower_Qpower 2 e H). Qed.

(** The binade of a positive rational is not above it. *)
Lemma binade_le q : (0 < q)%Q -> (JS.pow2 (JS.binade q) <= q)%Q.
Proof.
  intros Hq. unfold JS.binade.
  set (e := (Z.log2 (Qnum q) - Z.log2 (Z.pos (Qden q)))%Z).
  destruct (Qle_bool (JS.pow2 e) q) eqn:E; [apply Qle_bool_iff, E|].
  destruct q as [n d]. cbn [Qnum Qden] in *.
  assert (Hn : (0 < n)%Z).
  { unfold Qlt in Hq. cbn in Hq. lia. }
  pose proof (Z.log2_spec n Hn) as [Hln _].
  pose proof (Z.log2_spec (Z.pos d) eq_refl) as [_ Hld].
  pose proof (Z.log2_nonneg n) as Hn0.
  pose proof (Z.log2_nonneg (Z.pos d)) as Hd0.
  assert (HD : (inject_Z (Z.pos d) <= JS.pow2 (Z.succ (Z.log2 (Z.pos d))))%Q).
  { rewrite pow2_Z by lia. rewrite <- Zle_Qle. lia. }
  assert (HN : (JS.pow2 (Z.log2 n) <= inject_Z n)%Q).
  { rewrite pow2_Z by lia. rewrite <- Zle_Qle. exact Hln. }
  assert (Hsplit : (JS.pow2 (e - 1) * JS.pow2 (Z.succ (Z.log2 (Z.pos d)))
                    == JS.pow2 (Z.log2 n))%Q).
  { rewrite <- pow2_add. subst e.
    replace (Z.log2 n - Z.log2 (Z.pos d) - 1 + Z.succ (Z.log2 (Z.pos d)))%Z
      with (Z.log2 n) by lia.
    reflexivity. }
  assert (Hq' : ((n # d) * inject_Z (Z.pos d) == inject_Z n)%Q).
  { unfold Qeq, Qmult, inject_Z. cbn. lia. }
  apply (Qmult_le_r _ _ (inject_Z (Z.pos d))); [reflexivity|].
  rewrite Hq'.
  eapply Qle_trans; [|exact HN]. rewrite <- Hsplit.
  apply Qmult_le_l; [apply pow2_pos | exact HD].
Qed.

Lemma nearestEven_floor q : (Qfloor q <= JS.nearestEven q)%Z.
Proof.
  unfold JS.nearestEven.
  destruct (q - inject_Z (Qfloor q) ?= 1 # 2)%Q; [destruct (Z.even _)| |]; lia.
Qed.

Lemma roundPositive_nonneg q : (0 <= q)%Q -> (0 <= JS.roundPositive q)%Q.
Proof.
  intros Hq. unfold JS.roundPositive, JS.ulp.
  set (ulp := JS.pow2 _).
  assert (Hulp : (0 < ulp)%Q) by apply pow2_pos.
  apply Qmult_le_0_compat; [|apply Qlt_le_weak, Hulp].
  change 0%Q with (inject_Z 0). rewrite <- Zle_Qle.
  eapply Z.le_trans; [|apply nearestEven_floor].
  rewrite <- (Qfloor_Z 0). apply Qfloor_resp_le.
  apply Qle_shift_div_l; [exact Hulp|]. change (inject_Z 0) with 0%Q. lra.
Qed.

Lemma roundPositive_pos q :
  (JS.pow2 (-1074) <= q)%Q -> (0 < JS.roundPositive q)%Q.
Proof.
  intros Hq.
  assert (Hq0 : (0 < q)%Q).
  { eapply Qlt_le_trans; [apply (pow2_pos (-1074)) | exact Hq]. }
  unfold JS.roundPositive, JS.ulp.
  set (ulp := JS.pow2 _).
  assert (Hulp : (0 < ulp)%Q) by apply pow2_pos.
  assert (Hle : (ulp <= q)%Q).
  { subst ulp. destruct (Z.max_spec (JS.binade q - 52) (-1074)) as [[_ ->]|[_ ->]].
    - exact Hq.
    - eapply Qle_trans; [apply (pow2_le _ (JS.binade q)); lia | apply binade_le, Hq0]. }
  assert (Hone : (1 <= JS.nearestEven (q / ulp))%Z).
  { eapply Z.le_trans; [|apply nearestEven_floor].
    rewrite <- (Qfloor_Z 1). apply Qfloor_resp_le.
    apply Qle_shift_div_l; [exact Hulp|]. change (inject_Z 1) with 1%Q. lra. }
  apply Qmult_lt_0_compat; [|exact Hulp].
  change 0%Q with (inject_Z 0). rewrite <- Zlt_Qlt. lia.
Qed.

(** A positive rational lies below the power of two after its binade. *)
Lemma binade_lt q : (0 < q)%Q -> (q < JS.pow2 (JS.binade q + 1))%Q.
Proof.
  intros Hq. unfold JS.binade.
  set (e := (Z.log2 (Qnum q) - Z.log2 (Z.pos (Qden q)))%Z).
  destruct (Qle_bool (JS.pow2 e) q) eqn:E.
  - destruct q as [n d]. cbn [Qnum Qden] in *.
    assert (Hn : (0 < n)%Z).
    { unfold Qlt in Hq. cbn in Hq. lia. }
    pose proof (Z.log2_spec n Hn) as [_ Hln].
    pose proof (Z.log2_spec (Z.pos d) eq_refl) as [Hld _].
    pose proof (Z.log2_nonneg n) as Hn0.
    pose proof (Z.log2_nonneg (Z.pos d)) as Hd0.
    assert (HD : (JS.pow2 (Z.log2 (Z.pos d)) <= inject_Z (Z.pos d))%Q).
    { rewrite pow2_Z by lia. rewrite <- Zle_Qle. exact Hld. }
    assert (HN : (inject_Z n < JS.pow2 (Z.succ (Z.log2 n)))%Q).
    { rewrite pow2_Z by lia. rewrite <- Zlt_Qlt. exact Hln. }
    assert (Hsplit : (JS.pow2 (e + 1) * JS.pow2 (Z.log2 (Z.pos d))
                      == JS.pow2 (Z.succ (Z.log2 n)))%Q).
    { rewrite <- pow2_add. subst e.
      replace (Z.log2 n - Z.log2 (Z.pos d) + 1 + Z.log2 (Z.pos d))%Z
        with (Z.succ (Z.log2 n)) by lia.
      reflexivity. }
    assert (Hq' : ((n # d) * inject_Z (Z.pos d) == inject_Z n)%Q).
    { unfold Qeq, Qmult, inject_Z. cbn. lia. }
    apply (Qmult_lt_r _ _ (inject_Z (Z.pos d))); [reflexivity|].
    rewrite Hq'.
    eapply Qlt_le_trans; [exact HN|]. rewrite <- Hsplit.
    apply Qmult_le_l; [apply pow2_pos | exact HD].
  - replace (e - 1 + 1)%Z with e by lia.
    destruct (Qlt_le_dec q (JS.pow2 e)) as [H|H]; [exact H|].
    apply Qle_bool_iff in H. congruence.
Qed.

Lemma nearestEven_near x :
  (inject_Z (JS.nearestEven x) - (1 # 2) <= x <= inject_Z (JS.nearestEven x) + (1 # 2))%Q.
Proof.
  unfold JS.nearestEven.
  pose proof (Qfloor_le x) as Hlo. pose proof (Qlt_floor x) as Hhi.
  rewrite inject_Z_plus in Hhi. change (inject_Z 1) with 1%Q in Hhi.
  destruct (Qcompare_spec (x - inject_Z (Qfloor x)) (1 # 2)) as [H|H|H].
  - destruct (Z.even (Qfloor x)).
    + lra.
    + rewrite inject_Z_plus. change (inject_Z 1) with 1%Q. lra.
  - lra.
  - rewrite inject_Z_plus. change (inject_Z 1) with 1%Q. lra.
Qed.

(** Rounding moves a positive value by half a unit in the last place at
    most. *)
Lemma roundPositive_near q :
  (JS.roundPositive q - JS.ulp q * (1 # 2) <= q <= JS.roundPositive q + JS.ulp q * (1 # 2))%Q.
Proof.
  unfold JS.roundPositive.
  assert (Hu : (0 < JS.ulp q)%Q) by apply pow2_pos.
  pose proof (nearestEven_near (q / JS.ulp q)) as [Hlo Hhi].
  assert (Hq : (q / JS.ulp q * JS.ulp q == q)%Q).
  { field. lra. }
  set (u := JS.ulp q) in *. set (x := (q / u)%Q) in *.
  set (m := inject_Z (JS.nearestEven x)) in *.
  pose proof (Qmult_le_compat_r _ _ u Hlo (Qlt_le_weak _ _ Hu)) as H1.
  pose proof (Qmult_le_compat_r _ _ u Hhi (Qlt_le_weak _ _ Hu)) as H2.
  split; lra.
Qed.

(** The rounded value has a significand of 53 bits at most. *)
Lemma roundPositive_significand q :
  (0 < q)%Q ->
  (0 <= JS.nearestEven (q / JS.ulp q) <= 2 ^ 53)%Z.
Proof.
  intros Hq.
  assert (Hu : (0 < JS.ulp q)%Q) by apply pow2_pos.
  assert (Hx0 : (0 <= q / JS.ulp q)%Q).
  { apply Qle_shift_div_l; [exact Hu | lra]. }
  assert (Hx : (q / JS.ulp q < inject_Z (2 ^ 53))%Q).
  { apply Qlt_shift_div_r; [exact Hu|].
    eapply Qlt_le_trans; [apply binade_lt, Hq|].
    rewrite <- (pow2_Z 53) by lia. unfold JS.ulp. rewrite <- pow2_add.
    apply pow2_le. lia. }
  pose proof (nearestEven_near (q / JS.ulp q)) as [Hlo Hhi].
  split.
  - eapply Z.le_trans; [|apply nearestEven_floor].
    rewrite <- (Qfloor_Z 0). apply Qfloor_resp_le. exact Hx0.
  - assert (H : (inject_Z (JS.nearestEven (q / JS.ulp q)) < inject_Z (2 ^ 53 + 1))%Q).
    { rewrite inject_Z_plus. change (inject_Z 1) with 1%Q. lra. }
    rewrite <- Zlt_Qlt in H. lia.
Qed.

(** Rounding keeps the sign. *)
Lemma double_nonpos q : (q <= 0)%Q -> (JS.double q <= 0)%Q.
Proof.
  intros Hq. unfold JS.double. destruct (Qcompare_spec q 0) as [_|H|H].
  - apply Qle_refl.
  - assert (H' : (0 <= JS.roundPositive (- q))%Q) by (apply roundPositive_nonneg; lra).
    lra.
  - lra.
Qed.

Lemma double_nonneg q : (0 <= q)%Q -> (0 <= JS.double q)%Q.
Proof.
  intros Hq. unfold JS.double. destruct (Qcompare_spec q 0) as [_|H|H].
  - apply Qle_refl.
  - lra.
  - apply roundPositive_nonneg, Hq.
Qed.

Lemma roundPositive_onGrid q : onGrid (JS.roundPositive q).
Proof.
  unfold JS.roundPositive, JS.ulp.
  set (ex := Z.max (JS.binade q - 52) (-1074)).
  exists (JS.nearestEven (q / JS.pow2 ex) * 2 ^ (ex + 1074))%Z.
  rewrite inject_Z_mult, <- (pow2_Z (ex + 1074)) by (subst ex; lia).
  rewrite <- Qmult_assoc, <- pow2_add.
  replace (ex + 1074 + -1074)%Z with ex by lia. reflexivity.
Qed.

Lemma onGrid_opp q : onGrid q -> onGrid (- q)%Q.
Proof.
  intros [k Hk]. exists (- k)%Z. rewrite Hk, inject_Z_opp. ring.
Qed.

Lemma onGrid_0 : onGrid 0.
Proof. exists 0%Z. ring. Qed.

Lemma onGrid_1 : onGrid 1.
Proof.
  exists (2 ^ 1074)%Z. rewrite <- (pow2_Z 1074) by lia. rewrite <- pow2_add.
  reflexivity.
Qed.

Lemma double_onGrid q : onGrid (JS.double q).
Proof.
  unfold JS.double. destruct (q ?= 0)%Q.
  - apply onGrid_0.
  - apply onGrid_opp, roundPositive_onGrid.
  - apply roundPositive_onGrid.
Qed.

Lemma onGrid_pos q : onGrid q -> (0 < q)%Q -> (JS.pow2 (-1074) <= q)%Q.
Proof.
  intros [k Hk] Hq. rewrite Hk in *.
  pose proof (pow2_pos (-1074)) as Ht.
  assert (Hk1 : (1 <= k)%Z).
  { destruct (Z_lt_le_dec k 1) as [Hlt|]; [|assumption]. exfalso.
    assert (Hk0 : (inject_Z k <= 0)%Q).
    { change 0%Q with (inject_Z 0). rewrite <- Zle_Qle. lia. }
    assert ((inject_Z k * JS.pow2 (-1074) <= 0 * JS.pow2 (-1074))%Q).
    { apply Qmult_le_compat_r; [exact Hk0 | apply Qlt_le_weak, Ht]. }
    lra. }
  assert (H1 : (1 <= inject_Z k)%Q).
  { change 1%Q with (inject_Z 1). rewrite <- Zle_Qle. exact Hk1. }
  setoid_replace (JS.pow2 (-1074)) with (1 * JS.pow2 (-1074))%Q at 1 by ring.
  apply Qmult_le_compat_r; [exact H1 | apply Qlt_le_weak, Ht].
Qed.

Lemma double_pos q : onGrid q -> (0 < q)%Q -> (0 < JS.double q)%Q.
Proof.
  intros Hg Hq. unfold JS.double. destruct (Qcompare_spec q 0) as [H|H|H]; try lra.
  apply roundPositive_pos, onGrid_pos; assumption.
Qed.

Lemma onGrid_sub x y : onGrid x -> onGrid y -> onGrid (x - y)%Q.
Proof.
  intros [a Ha] [b Hb]. exists (a - b)%Z.
  rewrite Ha, Hb. unfold Z.sub. rewrite inject_Z_plus, inject_Z_opp. ring.
Qed.

(** On doubles the sign of [a - b] is the sign of the exact difference:
    two doubles that differ do so by [2^-1074] at least, which does not round
    to zero. *)
Lemma sub_nonpos x y :
  onGrid x -> onGrid y -> Qle_bool (JS.sub y x) 0 = true -> (y <= x)%Q.
Proof.
  intros Hx Hy E. apply Qle_bool_iff in E.
  destruct (Qlt_le_dec x y) as [Hlt|Hle]; [exfalso | exact Hle].
  assert (Hpos : (0 < JS.sub y x)%Q).
  { apply double_pos; [apply onGrid_sub; assumption | lra]. }
  lra.
Qed.

Lemma sub_pos x y : Qle_bool (JS.sub y x) 0 = false -> (x <= y)%Q.
Proof.
  intros E. destruct (Qlt_le_dec y x) as [Hlt|Hle]; [exfalso | exact Hle].
  assert (Hneg : (JS.sub y x <= 0)%Q) by (apply double_nonpos; lra).
  apply Qle_bool_iff in Hneg. congruence.
Qed.

Lemma Math_min_onGrid a b : onGrid a -> onGrid b -> onGrid (JS.Math_min a b).
Proof. intros Ha Hb. unfold JS.Math_min. now destruct (Qle_bool a b). Qed.

(** The usual landmarks: [0.1 + 0.2] is not the double nearest to 0.3 but
    the next one, [0.285 * 100] falls below 28.5, a half of the smallest
    double rounds to zero and three halves of it to twice the smallest
    double. *)
Example double_landmarks :
  (JS.add (JS.double (1 # 10)) (JS.double (2 # 10))
   == JS.double (3 # 10) + JS.pow2 (-54))%Q
  /\ (JS.mul (JS.double (285 # 1000)) 100 < 285 # 10)%Q
  /\ JS.Math_round (JS.mul (JS.double (285 # 1000)) 100) = 28%Z
  /\ (JS.double (JS.pow2 (-1075)) == 0)%Q
  /\ (JS.double (3 * JS.pow2 (-1075)) == 2 * JS.pow2 (-1074))%Q.
Proof.
  repeat split; try reflexivity; apply Qeq_bool_iff; vm_compute; reflexivity.
Qed.

(** The model and the machine agree: on sums, differences and products of
    doubles of every size, down to results that are rounded among the
    smallest doubles, and on the decimal fractions of the scores. *)
Example double_agrees_with_machine :
  forallb (fun p => JS.agreeOn (JS.scaled (fst (fst p)) (snd (fst p)))
                               (JS.scaled (fst (snd p)) (snd (snd p))))
    [ ((8106479329266893, -53), (5764607523034235, -58));
      ((3602879701896397, -55), (3602879701896397, -54));
      ((5134103573803633, -54), (100, 0));
      ((7926335344172073, -53), (5764607523034235, -58));
      ((9007199254740991, 0), (1, 0));
      ((9007199254740991, 0), (3, -2));
      ((4503599627370497, -52), (-4503599627370496, -52));
      ((6004799503160661, -54), (-6004799503160661, -107));
      ((3, -600), (5, -476));
      ((3, -600), (5, -475));
      ((7, -1074), (3, -1));
      ((1, -1074), (1, -1));
      ((-9, -1074), (5, -2));
      ((4503599627370496, -1074), (9007199254740991, -1126));
      ((9007199254740991, -1075), (1, -1074));
      ((6755399441055744, 100), (6755399441055745, 47));
      ((-8069039771007337, 300), (5404319552844595, 299));
      ((1, 52), (1, -1));
      ((1, 53), (1, 0));
      ((1, 53), (3, 0)) ]%Z
  = true
  /\ forallb (fun p => JS.agreeOnRatio (fst p) (snd p))
       [ (9, 10); (2, 100); (285, 1000); (94, 100); (84, 100); (1, 3);
         (-7, 13); (1, 10); (99, 100); (123456789, 1000) ]%Z
     = true.
Proof. split; vm_compute; reflexivity. Qed.

End NumberFacts.

Lemma slice_last_n {A} (n : nat) (l : list A) :
  JS.slice (- Z.of_nat (S n)) l = skipn (List.length l - S n) l.
Proof.
  unfold JS.slice.
  replace (- Z.of_nat (S n) <? 0)%Z with true by (symmetry; apply Z.ltb_lt; lia).
  f_equal. lia.
Qed.

(** ** /api/search *)

Section SearchFacts.
Import SearchRoute.
Variable mockSearchResults : list SearchResult.

Let handler := POST mockSearchResults.

(** A response tagged [mock] carries the locally filtered and scored list. *)
Lemma mock_response_results env fetch body :
  resp_source (fst (handler env fetch body)) = "mock" ->
  results (fst (handler env fetch body))
  = mockResults mockSearchResults
      (JS.nullish (body_query body) "")
      (JS.nullish (body_department body) "All")
      (JS.nullish (body_docType body) "All").
Proof.
  unfold handler, POST. destruct (configured env); [|reflexivity].
  destruct (fetch _) as [|[|] [value|]]; simpl; try reflexivity.
  discriminate.
Qed.

(** Every request to the index is the one built by [azureRequest]. *)
Lemma search_calls env fetch body c :
  In c (snd (handler env fetch body)) ->
  c = SearchCall (azureRequest env (JS.nullish (body_query body) "")
                               (JS.nullish (body_department body) "All")).
Proof.
  unfold handler, POST. destruct (configured env); simpl; [|tauto].
  destruct (fetch _) as [|[|] [value|]]; simpl; intuition congruence.
Qed.






(** *** Terms and the matched text *)

Lemma toLowerCase_app a b :
  JS.toLowerCase (a ++ b) = JS.toLowerCase a ++ JS.toLowerCase b.
Proof. induction a as [|c a IH]; simpl; [reflexivity | now rewrite IH]. Qed.

Lemma all_chars_app p a b :
  JS.all_chars p (a ++ b) = JS.all_chars p a && JS.all_chars p b.
Proof.
  induction a as [|c a IH]; simpl; [reflexivity|].
  now rewrite IH, andb_assoc.
Qed.

Lemma split_ws_from_no_space s : forall cur in_ws,
  JS.no_space cur = true ->
  Forall (fun t => JS.no_space t = true) (JS.split_ws_from s cur in_ws).
Proof.
  induction s as [|c s IH]; intros cur in_ws Hcur; simpl.
  - repeat constructor. exact Hcur.
  - destruct (JS.is_space c) eqn:Ec.
    + destruct in_ws.
      * apply IH, Hcur.
      * constructor; [exact Hcur | apply IH; reflexivity].
    + apply IH. unfold JS.no_space in *.
      rewrite all_chars_app, Hcur. simpl. now rewrite Ec.
Qed.

Lemma split_ws_no_space s :
  Forall (fun t => JS.no_space t = true) (JS.split_ws s).
Proof. apply split_ws_from_no_space. reflexivity. Qed.

(** A term without white space that starts a text made of [a], a space and
    [b] lies within [a]. *)
Lemma prefix_before_space a b : forall t,
  JS.no_space t = true ->
  String.prefix t (a ++ String " " b) = String.prefix t a.
Proof.
  induction a as [|c a IH]; intros [|d t] Ht; simpl; try reflexivity.
  - destruct (ascii_dec d " ") as [->|]; [discriminate Ht | reflexivity].
  - destruct (ascii_dec d c); [|reflexivity].
    apply IH. unfold JS.no_space in *. simpl in Ht.
    now apply andb_true_iff in Ht.
Qed.

Lemma includes_empty_text t :
  JS.includes "" t = String.prefix t "".
Proof. simpl. now rewrite orb_false_r. Qed.

Lemma includes_across_space a b t :
  JS.no_space t = true ->
  JS.includes (a ++ String " " b) t = JS.includes a t || JS.includes b t.
Proof.
  intros Ht. induction a as [|c a IH].
  - change ("" ++ String " " b) with (String " " b).
    rewrite includes_empty_text.
    change (JS.includes (String " " b) t)
      with (String.prefix t (String " " b) || JS.includes b t).
    f_equal. apply (prefix_before_space "" b t Ht).
  - change (JS.includes (String c a ++ String " " b) t)
      with (String.prefix t (String c a ++ String " " b)
            || JS.includes (a ++ String " " b) t).
    change (JS.includes (String c a) t)
      with (String.prefix t (String c a) || JS.includes a t).
    rewrite IH, (prefix_before_space (String c a) b t Ht).
    now rewrite !orb_assoc.
Qed.

Lemma resultText_fields r :
  resultText r
  = JS.toLowerCase (title r) ++ String " " (JS.toLowerCase (excerpt r)
      ++ String " " (JS.toLowerCase (source r))).
Proof.
  unfold resultText. now rewrite !toLowerCase_app.
Qed.

(** Counting the terms found in the joined text is counting the terms found
    in one of the three fields. *)
Lemma termMatches_fields terms r :
  Forall (fun t => JS.no_space t = true) terms ->
  termMatches terms r = termsOccurringInFields terms r.
Proof.
  intros Hterms. unfold termMatches, termsOccurringInFields. f_equal.
  apply filter_ext_in. intros t Ht.
  rewrite Forall_forall in Hterms. specialize (Hterms t Ht).
  rewrite resultText_fields, !includes_across_space by exact Hterms.
  now rewrite orb_assoc.
Qed.

End SearchFacts.

Module SearchClaims.
Import SearchRoute.

Lemma mockResults_in mock q d t r :
  In r (mockResults mock q d t) <->
  exists r0, In r0 mock
    /\ (d = "All" \/ department r0 = d)
    /\ (t = "All" \/ docType r0 = t)
    /\ r = (if q =? "" then r0 else boost (JS.split_ws (JS.toLowerCase q)) r0).
Proof.
  unfold mockResults.
  set (byDept := if negb (d =? "All") then _ else mock).
  set (byType := if negb (t =? "All") then _ else byDept).
  assert (Hdept : forall r0, In r0 byDept <->
            In r0 mock /\ (d = "All" \/ department r0 = d)).
  { intros r0. subst byDept. destruct (String.eqb_spec d "All") as [->|Hd]; simpl.
    - tauto.
    - rewrite filter_In, String.eqb_eq. tauto. }
  assert (Htype : forall r0, In r0 byType <->
            In r0 byDept /\ (t = "All" \/ docType r0 = t)).
  { intros r0. subst byType. destruct (String.eqb_spec t "All") as [->|Ht]; simpl.
    - tauto.
    - rewrite filter_In, String.eqb_eq. tauto. }
  destruct (q =? "") eqn:Eq; simpl.
  - rewrite Htype, Hdept. split.
    + intros [[H1 H2] H3]. exists r. tauto.
    + intros (r0 & H1 & H2 & H3 & ->). tauto.
  - split.
    + intros H.
      apply (Permutation_in _ (sort_perm byScoreDesc _)) in H.
      apply in_map_iff in H. destruct H as (r0 & <- & H).
      apply Htype in H. destruct H as [H H3]. apply Hdept in H.
      exists r0. tauto.
    + intros (r0 & H1 & H2 & H3 & ->).
      apply (Permutation_in _ (Permutation_sym (sort_perm byScoreDesc _))).
      apply in_map. apply Htype. split; [apply Hdept|]; tauto.
Qed.

(** The same for the handler that computes in doubles. *)
Lemma ieee_mock_response_results mock env fetch body :
  resp_source (fst (SearchRouteIEEE.POST mock env fetch body)) = "mock" ->
  results (fst (SearchRouteIEEE.POST mock env fetch body))
  = SearchRouteIEEE.mockResults mock (queryOf body) (departmentOf body)
      (docTypeOf body).
Proof.
  unfold SearchRouteIEEE.POST, queryOf, departmentOf, docTypeOf.
  destruct (configured env); [|reflexivity].
  destruct (fetch _) as [|[|] [value|]]; simpl; try reflexivity.
  discriminate.
Qed.

(** The two readings of the arithmetic answer with the same source, issue
    the same requests and return the same documents: only scores, and with
    them the order, can differ. *)
Lemma ieee_same_route mock env fetch body :
  resp_source (fst (SearchRouteIEEE.POST mock env fetch body))
  = resp_source (fst (POST mock env fetch body))
  /\ snd (SearchRouteIEEE.POST mock env fetch body) = snd (POST mock env fetch body).
Proof.
  unfold SearchRouteIEEE.POST, POST. destruct (configured env); [|split; reflexivity].
  destruct (fetch _) as [|[|] [value|]]; split; reflexivity.
Qed.

Lemma ieee_same_documents mock q d t :
  Permutation (map withoutScore (SearchRouteIEEE.mockResults mock q d t))
              (map withoutScore (mockResults mock q d t)).
Proof.
  unfold SearchRouteIEEE.mockResults, mockResults.
  set (byDept := if negb (d =? "All") then _ else mock).
  set (byType := if negb (t =? "All") then _ else byDept).
  destruct (negb (q =? "")); [|apply Permutation_refl].
  eapply perm_trans; [apply Permutation_map, sort_perm|].
  eapply perm_trans; [|apply Permutation_sym, Permutation_map, sort_perm].
  rewrite !map_map. apply Permutation_refl.
Qed.

Lemma ieee_scored_results mock q d t r :
  q <> "" ->
  In r (SearchRouteIEEE.mockResults mock q d t) ->
  exists r0, In r0 mock
    /\ r = SearchRouteIEEE.boost (JS.split_ws (JS.toLowerCase q)) r0.
Proof.
  intros Hq. apply String.eqb_neq in Hq.
  unfold SearchRouteIEEE.mockResults. rewrite Hq. cbn [negb].
  set (byDept := if negb (d =? "All") then _ else mock).
  set (byType := if negb (t =? "All") then _ else byDept).
  assert (Hdept : forall r0, In r0 byDept -> In r0 mock).
  { intros r0. subst byDept. destruct (negb (d =? "All")); [|tauto].
    rewrite filter_In. tauto. }
  assert (Htype : forall r0, In r0 byType -> In r0 mock).
  { intros r0 H. apply Hdept. revert H. subst byType.
    destruct (negb (t =? "All")); [|tauto]. rewrite filter_In. tauto. }
  intros H.
  apply (Permutation_in _ (sort_perm SearchRouteIEEE.byScoreDesc _)) in H.
  apply in_map_iff in H. destruct H as (r0 & <- & H).
  exists r0. split; [apply Htype, H | reflexivity].
Qed.

Lemma ieee_boost_onGrid terms r : onGrid (score (SearchRouteIEEE.boost terms r)).
Proof.
  apply NumberFacts.Math_min_onGrid;
    [apply NumberFacts.onGrid_1 | apply NumberFacts.double_onGrid].
Qed.

Lemma ieee_sorted (l : list SearchResult) :
  Forall (fun r => onGrid (score r)) l ->
  StronglySorted (fun a b => (score b <= score a)%Q)
    (JS.sort SearchRouteIEEE.byScoreDesc l).
Proof.
  apply (sort_sorted_on SearchRouteIEEE.byScoreDesc
           (fun a b => (score b <= score a)%Q) (fun r => onGrid (score r))).
  - intros x y Hx Hy. apply NumberFacts.sub_nonpos; assumption.
  - intros x y _ _. apply NumberFacts.sub_pos.
  - intros x y z Hxy Hyz. eapply Qle_trans; eassumption.
Qed.

(** C9. In mock mode and for a non-empty query the returned list is in
    non-increasing score order, no score exceeds 1, and each returned result
    is a mock result whose score is its base score plus 0.02 for every query
    term that occurs in its lowercased title, excerpt or source, capped at 1:
    the sum and the product are those of doubles, as the code computes
    them. *)
Theorem mock_scores_sorted_and_capped
    (mock : list SearchResult) (env : Env)
    (fetch : SearchFetch -> FetchOutcome (list SearchResult))
    (body : SearchRequestBody) :
  resp_source (fst (SearchRouteIEEE.POST mock env fetch body)) = "mock" ->
  queryOf body <> "" ->
  StronglySorted (fun a b => (score b <= score a)%Q)
    (results (fst (SearchRouteIEEE.POST mock env fetch body)))
  /\ Forall (fun r => (score r <= 1)%Q)
       (results (fst (SearchRouteIEEE.POST mock env fetch body)))
  /\ Forall (fun r => exists r0, In r0 mock /\ sameDocument r r0
                      /\ score r = boostedScore (searchTerms body) r0)
       (results (fst (SearchRouteIEEE.POST mock env fetch body))).
Proof.
  intros Hmock Hq.
  rewrite (ieee_mock_response_results mock env fetch body Hmock).
  split; [|split].
  - unfold SearchRouteIEEE.mockResults.
    apply String.eqb_neq in Hq. rewrite Hq. cbn [negb].
    apply ieee_sorted. apply Forall_forall. intros r Hr.
    apply in_map_iff in Hr. destruct Hr as (r0 & <- & _).
    apply ieee_boost_onGrid.
  - apply Forall_forall. intros r Hr.
    destruct (ieee_scored_results _ _ _ _ r Hq Hr) as (r0 & _ & ->).
    apply Math_min_le_l.
  - apply Forall_forall. intros r Hr.
    destruct (ieee_scored_results _ _ _ _ r Hq Hr) as (r0 & H0 & ->).
    exists r0. split; [exact H0|]. split; [repeat split|].
    unfold boostedScore.
    rewrite <- (termMatches_fields (searchTerms body) r0 (split_ws_no_space _)).
    reflexivity.
Qed.

Lemma mock_scores_sorted_and_capped_witness :
  let out := fst (SearchRouteIEEE.POST Fixtures.searchDoubles Fixtures.searchOffline
                    Fixtures.indexDown (Fixtures.askAll "PTO  policy")) in
  StronglySorted (fun a b => (score b <= score a)%Q) (results out)
  /\ Forall (fun r => (score r <= 1)%Q) (results out)
  /\ Forall (fun r => exists r0, In r0 Fixtures.searchDoubles /\ sameDocument r r0
                      /\ score r = boostedScore
                                     (searchTerms (Fixtures.askAll "PTO  policy")) r0)
       (results out).
Proof.
  apply (mock_scores_sorted_and_capped Fixtures.searchDoubles Fixtures.searchOffline
           Fixtures.indexDown (Fixtures.askAll "PTO  policy")).
  - reflexivity.
  - discriminate.
Defined.

(** On the fixture the four scores are the doubles that print as 0.99,
    0.9400000000000001, 0.85 and 0.8400000000000001: the second and the
    fourth lie one unit in the last place above the doubles nearest to 0.94
    and 0.84, which is where the exact sums 47/50 and 21/25 would round. *)
Example fixture_scores_are_doubles :
  map (fun r => (id r, Qred (score r)))
      (results (fst (SearchRouteIEEE.POST Fixtures.searchDoubles Fixtures.searchOffline
                       Fixtures.indexDown (Fixtures.askAll "PTO  policy"))))
  = [ ("sr-2", Qred (JS.double (99 # 100)));
      ("sr-1", Qred (JS.double (94 # 100) + JS.pow2 (-53)));
      ("sr-4", Qred (JS.double (85 # 100)));
      ("sr-3", Qred (JS.double (84 # 100) + JS.pow2 (-53))) ].
Proof. vm_compute. reflexivity. Qed.

(** C10. In mock mode every returned result has the requested department
    when that is not [All] and the requested document type when that is not
    [All]; a field left at [All] constrains nothing, so every mock result
    that meets the fields that are set is returned. *)
Theorem mock_filters_exact
    (mock : list SearchResult) (env : Env)
    (fetch : SearchFetch -> FetchOutcome (list SearchResult))
    (body : SearchRequestBody) :
  resp_source (fst (POST mock env fetch body)) = "mock" ->
  (forall r, In r (results (fst (POST mock env fetch body))) ->
     (departmentOf body <> "All" -> department r = departmentOf body)
     /\ (docTypeOf body <> "All" -> docType r = docTypeOf body))
  /\ (forall r0, In r0 mock ->
        (departmentOf body = "All" \/ department r0 = departmentOf body) ->
        (docTypeOf body = "All" \/ docType r0 = docTypeOf body) ->
        exists r, In r (results (fst (POST mock env fetch body)))
                  /\ sameDocument r r0).
Proof.
  intros Hmock.
  rewrite (mock_response_results mock env fetch body Hmock).
  fold (queryOf body) (departmentOf body) (docTypeOf body).
  split.
  - intros r Hr. apply mockResults_in in Hr.
    destruct Hr as (r0 & _ & Hd & Ht & ->).
    assert (Hsame : department (if queryOf body =? "" then r0
                                else boost (JS.split_ws (JS.toLowerCase (queryOf body))) r0)
                    = department r0
                    /\ docType (if queryOf body =? "" then r0
                                else boost (JS.split_ws (JS.toLowerCase (queryOf body))) r0)
                       = docType r0)
      by (destruct (queryOf body =? ""); split; reflexivity).
    destruct Hsame as [-> ->]. tauto.
  - intros r0 H0 Hd Ht.
    exists (if queryOf body =? "" then r0
            else boost (JS.split_ws (JS.toLowerCase (queryOf body))) r0).
    split.
    + apply mockResults_in. exists r0. tauto.
    + destruct (queryOf body =? ""); repeat split.
Qed.

Lemma mock_filters_exact_witness :
  let body := Fixtures.askIn "time off" "HR" "All" in
  let out := fst (POST Fixtures.searchResults Fixtures.searchLive
                       Fixtures.indexDown body) in
  (forall r, In r (results out) ->
     (departmentOf body <> "All" -> department r = departmentOf body)
     /\ (docTypeOf body <> "All" -> docType r = docTypeOf body))
  /\ (forall r0, In r0 Fixtures.searchResults ->
        (departmentOf body = "All" \/ department r0 = departmentOf body) ->
        (docTypeOf body = "All" \/ docType r0 = docTypeOf body) ->
        exists r, In r (results out) /\ sameDocument r r0).
Proof.
  apply (mock_filters_exact Fixtures.searchResults Fixtures.searchLive
           Fixtures.indexDown (Fixtures.askIn "time off" "HR" "All")).
  reflexivity.
Defined.

(** C1, as the handler has it. The request sent to the index carries no
    group filter: its filter is absent when the department is [All] and is
    the department equality otherwise, and whatever the index answers is
    returned as it is. *)
Theorem search_filter_is_department_only
    (mock : list SearchResult) (env : Env)
    (fetch : SearchFetch -> FetchOutcome (list SearchResult))
    (body : SearchRequestBody) (req : SearchFetch) :
  In (SearchCall req) (snd (POST mock env fetch body)) ->
  filter (search_body req)
  = (if departmentOf body =? "All" then None
     else Some ("department eq '" ++ departmentOf body ++ "'"))
  /\ (forall value, fetch req = FetchResolves true (Some value) ->
        results (fst (POST mock env fetch body)) = value
        /\ resp_source (fst (POST mock env fetch body)) = "azure").
Proof.
  intros Hin. pose proof (search_calls mock env fetch body _ Hin) as E.
  injection E as ->. split; [reflexivity|].
  intros value Hfetch. revert Hin. unfold POST. cbv zeta.
  destruct (configured env); [|simpl; tauto].
  rewrite Hfetch. simpl. tauto.
Qed.

Lemma search_filter_is_department_only_witness :
  let body := Fixtures.askIn "leave" "HR" "All" in
  let fetch := Fixtures.indexAnswers Fixtures.searchResults in
  let req := azureRequest Fixtures.searchLive "leave" "HR" in
  filter (search_body req) = Some "department eq 'HR'"
  /\ (forall value, fetch req = FetchResolves true (Some value) ->
        results (fst (POST [] Fixtures.searchLive fetch body)) = value
        /\ resp_source (fst (POST [] Fixtures.searchLive fetch body)) = "azure").
Proof.
  apply (search_filter_is_department_only [] Fixtures.searchLive
           (Fixtures.indexAnswers Fixtures.searchResults)
           (Fixtures.askIn "leave" "HR" "All")).
  simpl. left. reflexivity.
Defined.

(** C1 fails as stated: a query for every department leaves the portal with
    no filter at all, one for a department leaves with a filter that does
    not mention the groups field, and the records the index answers with
    are handed back unchanged. *)
Lemma search_request_has_no_group_filter :
  (exists req,
     snd (POST [] Fixtures.searchLive (Fixtures.indexAnswers Fixtures.searchResults)
            (Fixtures.askAll "salary bands")) = [SearchCall req]
     /\ filter (search_body req) = None)
  /\ (exists req f,
        snd (POST [] Fixtures.searchLive (Fixtures.indexAnswers Fixtures.searchResults)
               (Fixtures.askIn "salary bands" "HR" "All")) = [SearchCall req]
        /\ filter (search_body req) = Some f
        /\ JS.includes f "allowed_groups" = false)
  /\ results (fst (POST [] Fixtures.searchLive
                     (Fixtures.indexAnswers Fixtures.searchResults)
                     (Fixtures.askAll "salary bands")))
     = Fixtures.searchResults.
Proof.
  split; [|split].
  - eexists. split; reflexivity.
  - eexists. eexists. split; [reflexivity|]. split; reflexivity.
  - reflexivity.
Qed.

(** C6, as the handler has it. Every request to the index asks for ten
    results with semantic ranking, whatever the request body and the
    environment hold. *)
Theorem search_requests_top_ten
    (mock : list SearchResult) (env : Env)
    (fetch : SearchFetch -> FetchOutcome (list SearchResult))
    (body : SearchRequestBody) (req : SearchFetch) :
  In (SearchCall req) (snd (POST mock env fetch body)) ->
  top (search_body req) = 10 /\ queryType (search_body req) = "semantic".
Proof.
  intros Hin. pose proof (search_calls mock env fetch body _ Hin) as E.
  injection E as ->. split; reflexivity.
Qed.

Lemma search_requests_top_ten_witness :
  let req := azureRequest Fixtures.searchLive "pto" "All" in
  top (search_body req) = 10 /\ queryType (search_body req) = "semantic".
Proof.
  apply (search_requests_top_ten [] Fixtures.searchLive Fixtures.indexDown
           (Fixtures.askAll "pto")).
  simpl. left. reflexivity.
Defined.

(** C6 fails as stated: the request that leaves for the index asks for ten
    results, not five. *)
Lemma search_request_asks_for_ten :
  exists req,
    snd (POST [] Fixtures.searchLive Fixtures.indexDown (Fixtures.askAll "pto"))
    = [SearchCall req]
    /\ top (search_body req) = 10
    /\ top (search_body req) <> 5.
Proof.
  eexists. split; [reflexivity|]. split; [reflexivity | discriminate].
Qed.

End SearchClaims.

(** ** /api/chat *)

Module ChatClaims.
Import ChatRoute.

Lemma slice_last_six {A} (l : list A) :
  JS.slice (-6) l = skipn (List.length l - 6) l.
Proof. exact (slice_last_n 5 l). Qed.

(** With both variables set the handler calls the model once, with the
    request built by [completionRequest]; otherwise it calls nothing. *)
Lemma chat_calls mock env fetch body :
  snd (POST mock env fetch body)
  = if configured env
    then [ChatCall (completionRequest env (message body) (historyOf body))]
    else [].
Proof.
  unfold POST, historyOf. destruct (configured env); [|reflexivity].
  destruct (fetch _) as [|[|] [data|]]; reflexivity.
Qed.



(** C2, as the handler has it. The chat handler issues no search request
    and has no branch on a result count: it calls the model exactly once when
    both variables are set and never otherwise. *)
Theorem chat_calls_model_iff_configured
    (mock : string -> string * list Citation) (env : Env)
    (fetch : ChatFetch -> FetchOutcome CompletionData)
    (body : ChatRequestBody) :
  List.filter is_search_call (snd (POST mock env fetch body)) = []
  /\ List.length (List.filter is_chat_call (snd (POST mock env fetch body)))
     = (if configured env then 1 else 0).
Proof.
  rewrite chat_calls. destruct (configured env); split; reflexivity.
Qed.

(** C2 fails as stated: for a question nothing was retrieved for (the
    handler retrieves nothing at all) the model is called all the same, and
    its text is what is answered. *)
Lemma model_called_without_retrieval :
  exists req,
    snd (POST Fixtures.mockChat Fixtures.chatLive (Fixtures.modelSays "asdfghjkl?")
           (Fixtures.ask "asdfghjkl" [])) = [ChatCall req]
    /\ List.filter is_search_call
         (snd (POST Fixtures.mockChat Fixtures.chatLive (Fixtures.modelSays "asdfghjkl?")
                 (Fixtures.ask "asdfghjkl" []))) = []
    /\ resp_source
         (fst (POST Fixtures.mockChat Fixtures.chatLive (Fixtures.modelSays "asdfghjkl?")
                 (Fixtures.ask "asdfghjkl" []))) = "azure".
Proof.
  eexists. split; [reflexivity|]. split; reflexivity.
Qed.

(** C3, as the handler has it. When the model call resolves with an OK
    response the text delivered is the content of the model's first choice,
    as it is, tagged [azure]; a response tagged [mock] carries the text of
    [getMockChatResponse]. The handler holds no fallback text of its own. *)
Theorem chat_response_is_model_text
    (mock : string -> string * list Citation) (env : Env)
    (fetch : ChatFetch -> FetchOutcome CompletionData)
    (body : ChatRequestBody) :
  (forall data,
     configured env = true ->
     fetch (completionRequest env (message body) (historyOf body))
     = FetchResolves true (Some data) ->
     response (fst (POST mock env fetch body)) = firstContent data
     /\ resp_source (fst (POST mock env fetch body)) = "azure")
  /\ (resp_source (fst (POST mock env fetch body)) = "mock" ->
      response (fst (POST mock env fetch body)) = fst (mock (message body))).
Proof.
  unfold POST, historyOf. split.
  - intros data -> ->. split; reflexivity.
  - destruct (configured env).
    + destruct (fetch _) as [|[|] [data|]]; simpl;
        try discriminate; destruct (mock (message body)); reflexivity.
    + destruct (mock (message body)); reflexivity.
Qed.

Lemma chat_response_is_model_text_witness :
  response (fst (POST Fixtures.mockChat Fixtures.chatLive
                   (Fixtures.modelSays "You accrue 15 days.")
                   (Fixtures.ask "How much PTO?" []))) = "You accrue 15 days."
  /\ response (fst (POST Fixtures.mockChat Fixtures.chatOffline Fixtures.modelDown
                      (Fixtures.ask "How much PTO?" [])))
     = "Here is what the handbook says.".
Proof.
  split.
  - apply (proj1 (chat_response_is_model_text Fixtures.mockChat Fixtures.chatLive
                    (Fixtures.modelSays "You accrue 15 days.")
                    (Fixtures.ask "How much PTO?" []))
             {| choices := [ {| choice_message :=
                                  Some {| choice_content := Some "You accrue 15 days." |} |} ] |});
      reflexivity.
  - apply (proj2 (chat_response_is_model_text Fixtures.mockChat Fixtures.chatOffline
                    Fixtures.modelDown (Fixtures.ask "How much PTO?" []))).
    reflexivity.
Defined.

(** C3 fails as stated: two different refusals of the model are each
    delivered word for word, so what the user reads when the model declines
    is the model's text and not one fixed message. *)
Lemma declined_answer_is_model_text :
  response (fst (POST Fixtures.mockChat Fixtures.chatLive
                   (Fixtures.modelSays "I don't know.")
                   (Fixtures.ask "What is the dress code on Mars?" [])))
  = "I don't know."
  /\ response (fst (POST Fixtures.mockChat Fixtures.chatLive
                      (Fixtures.modelSays "I cannot answer that.")
                      (Fixtures.ask "What is the dress code on Mars?" [])))
     = "I cannot answer that."
  /\ "I don't know." <> "I cannot answer that."
  /\ resp_source (fst (POST Fixtures.mockChat Fixtures.chatLive
                         (Fixtures.modelSays "I don't know.")
                         (Fixtures.ask "What is the dress code on Mars?" [])))
     = "azure".
Proof.
  split; [reflexivity|]. split; [reflexivity|]. split; [discriminate | reflexivity].
Qed.

(** C5, as the handler has it. An answer tagged [azure] has an empty
    citations list; an answer tagged [mock] has the citations of
    [getMockChatResponse]. *)
Theorem chat_citations_by_source
    (mock : string -> string * list Citation) (env : Env)
    (fetch : ChatFetch -> FetchOutcome CompletionData)
    (body : ChatRequestBody) :
  (resp_source (fst (POST mock env fetch body)) = "azure" ->
   resp_citations (fst (POST mock env fetch body)) = [])
  /\ (resp_source (fst (POST mock env fetch body)) = "mock" ->
      resp_citations (fst (POST mock env fetch body)) = snd (mock (message body))).
Proof.
  unfold POST. destruct (configured env).
  - destruct (fetch _) as [|[|] [data|]]; simpl;
      destruct (mock (message body)); simpl; split; intros H;
      try reflexivity; discriminate H.
  - destruct (mock (message body)); simpl; split; intros H;
      try reflexivity; discriminate H.
Qed.

Lemma chat_citations_by_source_witness :
  resp_citations (fst (POST Fixtures.mockChat Fixtures.chatLive
                         (Fixtures.modelSays "You accrue 15 days.")
                         (Fixtures.ask "How much PTO?" []))) = []
  /\ resp_citations (fst (POST Fixtures.mockChat Fixtures.chatOffline Fixtures.modelDown
                            (Fixtures.ask "How much PTO?" [])))
     = snd (Fixtures.mockChat "How much PTO?").
Proof.
  split.
  - apply (proj1 (chat_citations_by_source Fixtures.mockChat Fixtures.chatLive
                    (Fixtures.modelSays "You accrue 15 days.")
                    (Fixtures.ask "How much PTO?" []))).
    reflexivity.
  - apply (proj2 (chat_citations_by_source Fixtures.mockChat Fixtures.chatOffline
                    Fixtures.modelDown (Fixtures.ask "How much PTO?" []))).
    reflexivity.
Defined.

(** C5 fails as stated: an answer of the model is returned with an empty
    citations list and with nothing added to its text, and when the model
    returns no choice the answer is the empty text with no citation. *)
Lemma model_answer_without_sources :
  fst (POST Fixtures.mockChat Fixtures.chatLive
         (Fixtures.modelSays "You accrue 15 days.")
         (Fixtures.ask "How much PTO?" []))
  = {| response := "You accrue 15 days."; resp_citations := [];
       resp_source := "azure" |}
  /\ fst (POST Fixtures.mockChat Fixtures.chatLive Fixtures.modelSilent
            (Fixtures.ask "How much PTO?" []))
     = {| response := ""; resp_citations := []; resp_source := "azure" |}.
Proof. split; reflexivity. Qed.

End ChatClaims.

(** ** Ingestion *)

Module IngestionClaims.
Import Ingestion.

Lemma same_id_eq c e : same_id c e = true <-> chunkId e = chunkId c.
Proof. unfold same_id. apply String.eqb_eq. Qed.

Lemma overwrite_id c e : chunkId (overwrite c e) = chunkId e.
Proof.
  unfold overwrite. destruct (same_id c e) eqn:E; [|reflexivity].
  symmetry. apply same_id_eq, E.
Qed.

Lemma overwriteAll_id cs : forall e, chunkId (overwriteAll cs e) = chunkId e.
Proof.
  induction cs as [|c cs IH]; intros e; simpl; [reflexivity|].
  unfold overwriteAll in *. simpl. rewrite IH. apply overwrite_id.
Qed.

Lemma present_iff c idx :
  existsb (same_id c) idx = true <-> In (chunkId c) (map chunkId idx).
Proof.
  rewrite existsb_exists, in_map_iff. split.
  - intros (e & He & E). exists e. split; [apply same_id_eq, E | exact He].
  - intros (e & E & He). exists e. split; [exact He | apply same_id_eq, E].
Qed.

Lemma upsert_present c idx :
  existsb (same_id c) idx = true -> upsert c idx = map (overwrite c) idx.
Proof. unfold upsert. now intros ->. Qed.

Lemma ids_overwritten c idx :
  map chunkId (map (overwrite c) idx) = map chunkId idx.
Proof.
  rewrite map_map. apply map_ext. intros e. apply overwrite_id.
Qed.

Lemma ids_upsert c idx :
  map chunkId (upsert c idx)
  = if existsb (same_id c) idx then map chunkId idx
    else (map chunkId idx ++ [chunkId c])%list.
Proof.
  unfold upsert. destruct (existsb (same_id c) idx).
  - apply ids_overwritten.
  - now rewrite map_app.
Qed.

Lemma in_ids_upsert k c idx :
  In k (map chunkId (upsert c idx)) <-> In k (map chunkId idx) \/ k = chunkId c.
Proof.
  rewrite ids_upsert. destruct (existsb (same_id c) idx) eqn:E.
  - apply present_iff in E. split; [tauto|]. intros [H| ->]; assumption.
  - rewrite in_app_iff. simpl. intuition congruence.
Qed.

Lemma in_ids_upsertAll k cs : forall idx,
  In k (map chunkId (upsertAll cs idx))
  <-> In k (map chunkId idx) \/ In k (map chunkId cs).
Proof.
  induction cs as [|c cs IH]; intros idx; simpl.
  - tauto.
  - unfold upsertAll in *. simpl. rewrite IH, in_ids_upsert. intuition congruence.
Qed.

Lemma upsertAll_snoc cs c idx :
  upsertAll (cs ++ [c]) idx = upsert c (upsertAll cs idx).
Proof. unfold upsertAll. now rewrite fold_left_app. Qed.

Lemma overwriteAll_snoc cs c e :
  overwriteAll (cs ++ [c]) e = overwrite c (overwriteAll cs e).
Proof. unfold overwriteAll. now rewrite fold_left_app. Qed.

(** Once every id of [cs] is stored, writing [cs] rewrites records in
    place. *)
Lemma upsertAll_present cs : forall idx,
  (forall c, In c cs -> In (chunkId c) (map chunkId idx)) ->
  upsertAll cs idx = map (overwriteAll cs) idx.
Proof.
  induction cs as [|c cs IH]; intros idx Hall.
  - simpl. symmetry. apply map_id.
  - change (upsertAll (c :: cs) idx) with (upsertAll cs (upsert c idx)).
    rewrite upsert_present by (apply present_iff, Hall; now left).
    rewrite IH.
    + rewrite map_map. reflexivity.
    + intros c' Hc'. rewrite ids_overwritten. apply Hall. now right.
Qed.

(** After [cs] has been written, writing it again changes no record. *)
Lemma upsertAll_settled cs : forall idx,
  Forall (fun e => overwriteAll cs e = e) (upsertAll cs idx).
Proof.
  induction cs as [|c cs IH] using rev_ind; intros idx.
  - apply Forall_forall. reflexivity.
  - rewrite upsertAll_snoc. apply Forall_forall. intros e' He'.
    rewrite overwriteAll_snoc.
    specialize (IH idx). rewrite Forall_forall in IH.
    assert (Hc : overwrite c (overwriteAll cs c) = c).
    { unfold overwrite.
      replace (same_id c (overwriteAll cs c)) with true; [reflexivity|].
      symmetry. apply same_id_eq, overwriteAll_id. }
    unfold upsert in He'. destruct (existsb (same_id c) (upsertAll cs idx)) eqn:E.
    + apply in_map_iff in He'. destruct He' as (e & <- & He).
      assert (Hover : overwrite c e = if same_id c e then c else e) by reflexivity.
      rewrite Hover. destruct (same_id c e) eqn:Ee; [exact Hc|].
      rewrite (IH e He). exact Hover.
    + apply in_app_or in He'. destruct He' as [He|[<-|[]]]; [|exact Hc].
      rewrite (IH e' He). unfold overwrite.
      replace (same_id c e') with false; [reflexivity|].
      symmetry. destruct (same_id c e') eqn:Ee; [|reflexivity].
      rewrite <- E. symmetry. apply existsb_exists. eauto.
Qed.

Lemma deleteStale_idem doc ids idx :
  deleteStale doc ids (deleteStale doc ids idx) = deleteStale doc ids idx.
Proof.
  unfold deleteStale. induction idx as [|e idx IH]; simpl; [reflexivity|].
  destruct (negb (stale doc ids e)) eqn:E; simpl; [rewrite E|]; now rewrite ?IH.
Qed.

Lemma stale_listed doc ids e :
  In (chunkId e) ids -> stale doc ids e = false.
Proof.
  intros H. unfold stale.
  replace (existsb (String.eqb (chunkId e)) ids) with true.
  - apply andb_false_r.
  - symmetry. apply existsb_exists. exists (chunkId e).
    split; [exact H | apply String.eqb_refl].
Qed.

Lemma NoDup_ids_filter (p : Chunk -> bool) idx :
  NoDup (map chunkId idx) -> NoDup (map chunkId (List.filter p idx)).
Proof.
  induction idx as [|e idx IH]; simpl; [trivial|].
  intros H. inversion H as [|k ks Hk Hks]; subst.
  destruct (p e); simpl; [|now apply IH].
  constructor; [|now apply IH].
  intros Hin. apply Hk. apply in_map_iff in Hin.
  destruct Hin as (e' & E & He'). apply filter_In in He'.
  apply in_map_iff. exists e'. tauto.
Qed.

Lemma NoDup_ids_upsert c idx :
  NoDup (map chunkId idx) -> NoDup (map chunkId (upsert c idx)).
Proof.
  intros H. rewrite ids_upsert. destruct (existsb (same_id c) idx) eqn:E; [exact H|].
  apply NoDup_app; [exact H | repeat constructor; simpl; tauto |].
  intros k Hk [<-|[]]. apply present_iff in Hk. congruence.
Qed.

Lemma NoDup_ids_upsertAll cs : forall idx,
  NoDup (map chunkId idx) -> NoDup (map chunkId (upsertAll cs idx)).
Proof.
  induction cs as [|c cs IH]; intros idx H; [exact H|].
  apply (IH (upsert c idx)), NoDup_ids_upsert, H.
Qed.

Section ReIngestion.
Variable mkChunkId : string -> nat -> nat -> string.
Variable extract : SourceDocument -> list ExtractedPage.
Variable metaOf : SourceDocument -> DocumentMeta.
Variable windows : list ExtractedPage -> list Passage.
Variable embed : string -> list Q.
Variable resolve : string -> list string.

Let chunksOf := chunk mkChunkId extract metaOf windows embed resolve.
Let run := ingest mkChunkId extract metaOf windows embed resolve.

Lemma number_ids d ps : forall start i c,
  nth_error (number mkChunkId metaOf embed resolve d start ps) i = Some c ->
  chunkId c = mkChunkId (documentId d) (chunk_pageNumber c) (start + i).
Proof.
  induction ps as [|p ps IH]; intros start [|i] c H; simpl in H; try discriminate.
  - injection H as <-. simpl. now rewrite Nat.add_0_r.
  - rewrite (IH (S start) i c H). f_equal. lia.
Qed.

Lemma upsertAll_again cs doc idx :
  let stored := deleteStale doc (map chunkId cs) (upsertAll cs idx) in
  upsertAll cs stored = stored.
Proof.
  intros stored.
  assert (Hsub : forall e, In e stored -> In e (upsertAll cs idx))
    by (intros e He; apply filter_In in He; tauto).
  rewrite upsertAll_present.
  - rewrite <- (map_id stored) at 2. apply map_ext_in. intros e He.
    pose proof (upsertAll_settled cs idx) as Hset. rewrite Forall_forall in Hset.
    apply Hset, Hsub, He.
  - intros c Hc.
    assert (Hin : In (chunkId c) (map chunkId (upsertAll cs idx)))
      by (apply in_ids_upsertAll; right; apply in_map, Hc).
    apply in_map_iff in Hin. destruct Hin as (e & E & He).
    apply in_map_iff. exists e. split; [exact E|].
    apply filter_In. split; [exact He|].
    rewrite stale_listed; [reflexivity|]. rewrite E. apply in_map, Hc.
Qed.

(** C7. The id of the chunk with sequence number [seq] is computed from the
    document id, the chunk's page number and [seq]; ingesting an unchanged
    document a second time leaves the index as the first ingestion left it,
    record for record; and an index without two records under one id stays
    without. *)
Theorem reingest_idempotent (d : SourceDocument) (idx : Index) :
  (forall seq c, nth_error (chunksOf d) seq = Some c ->
     chunkId c = mkChunkId (documentId d) (chunk_pageNumber c) seq)
  /\ run d (run d idx) = run d idx
  /\ (NoDup (map chunkId idx) -> NoDup (map chunkId (run d idx))).
Proof.
  split; [|split].
  - intros seq c H. apply (number_ids d _ 0 seq c H).
  - unfold run, ingest. destruct (deleted d).
    + apply deleteStale_idem.
    + cbv zeta. rewrite upsertAll_again. apply deleteStale_idem.
  - intros H. unfold run, ingest. destruct (deleted d).
    + apply NoDup_ids_filter, H.
    + apply NoDup_ids_filter, NoDup_ids_upsertAll, H.
Qed.
End ReIngestion.

Lemma reingest_idempotent_witness :
  NoDup (map chunkId (Fixtures.ingestPolicy []))
  /\ Fixtures.ingestPolicy (Fixtures.ingestPolicy []) = Fixtures.ingestPolicy []
  /\ map chunkId (Fixtures.ingestPolicy []) = ["pto-policy-p1-c0"; "pto-policy-p2-c1"].
Proof.
  pose proof (reingest_idempotent Fixtures.idScheme Fixtures.twoPages
                Fixtures.policyMeta Fixtures.onePerPage Fixtures.lengthVector
                Fixtures.groupG1 Fixtures.ptoPolicy []) as (_ & Hsame & Hnodup).
  split; [apply Hnodup; constructor|]. split; [exact Hsame | reflexivity].
Defined.

End IngestionClaims.

(** * Further properties of the portal *)

(** ** /api/search *)

Module SearchMore.
Import SearchRoute.

Lemma filter_twice {A} (f g : A -> bool) (l : list A) :
  List.filter g (List.filter f l) = List.filter (fun x => f x && g x) l.
Proof.
  induction l as [|x l IH]; simpl; [reflexivity|].
  destruct (f x); simpl; [|exact IH]. destruct (g x); now rewrite IH.
Qed.

Lemma mockResults_eq mock q d t :
  mockResults mock q d t
  = if q =? "" then List.filter (meetsFilters d t) mock
    else JS.sort byScoreDesc
           (map (boost (JS.split_ws (JS.toLowerCase q)))
                (List.filter (meetsFilters d t) mock)).
Proof.
  assert (E : (if negb (t =? "All")
               then List.filter (fun r => docType r =? t)
                      (if negb (d =? "All")
                       then List.filter (fun r => department r =? d) mock else mock)
               else if negb (d =? "All")
                    then List.filter (fun r => department r =? d) mock else mock)
              = List.filter (meetsFilters d t) mock).
  { unfold meetsFilters. destruct (d =? "All"), (t =? "All"); simpl.
    - induction mock as [|r l IH]; simpl; [reflexivity | now rewrite <- IH].
    - apply filter_ext. intros r. reflexivity.
    - apply filter_ext. intros r. now rewrite andb_true_r.
    - apply filter_twice. }
  unfold mockResults. cbv zeta. rewrite E. destruct (q =? ""); reflexivity.
Qed.

(** X1. Whatever goes wrong with the index (the call rejects, the status
    is not OK, the body cannot be read), the answer is the mock answer. *)
Theorem search_failure_serves_mock
    (mock : list SearchResult) (env : Env)
    (fetch : SearchFetch -> FetchOutcome (list SearchResult))
    (body : SearchRequestBody) :
  (forall value,
     fetch (azureRequest env (queryOf body) (departmentOf body))
     <> FetchResolves true (Some value)) ->
  fst (POST mock env fetch body)
  = {| results := mockResults mock (queryOf body) (departmentOf body)
                    (docTypeOf body);
       resp_source := "mock" |}.
Proof.
  intros Hfail. unfold POST. cbv zeta.
  fold (queryOf body) (departmentOf body) (docTypeOf body).
  destruct (configured env); [|reflexivity].
  destruct (fetch _) as [|[|] [value|]] eqn:E; try reflexivity.
  exfalso. exact (Hfail value eq_refl).
Qed.

Lemma search_failure_serves_mock_witness :
  fst (POST Fixtures.searchResults Fixtures.searchLive Fixtures.indexDown
         (Fixtures.askIn "" "IT" "All"))
  = {| results := mockResults Fixtures.searchResults "" "IT" "All";
       resp_source := "mock" |}.
Proof.
  apply (search_failure_serves_mock Fixtures.searchResults Fixtures.searchLive
           Fixtures.indexDown (Fixtures.askIn "" "IT" "All")).
  intros value. discriminate.
Defined.

(** X2. The document type of a request never reaches the index: two
    requests that differ in it alone cause the same network traffic, and
    when the index answers they get the same response. *)
Theorem docType_not_sent
    (mock : list SearchResult) (env : Env)
    (fetch : SearchFetch -> FetchOutcome (list SearchResult))
    (body : SearchRequestBody) (t : option string) :
  snd (POST mock env fetch (withDocType t body)) = snd (POST mock env fetch body)
  /\ (resp_source (fst (POST mock env fetch body)) = "azure" ->
      fst (POST mock env fetch (withDocType t body)) = fst (POST mock env fetch body)).
Proof.
  unfold POST, withDocType. cbv zeta. simpl.
  destruct (configured env); [|split; [reflexivity | discriminate]].
  destruct (fetch _) as [|[|] [value|]]; split; try reflexivity; discriminate.
Qed.

Lemma docType_not_sent_witness :
  fst (POST Fixtures.searchResults Fixtures.searchLive
         (Fixtures.indexAnswers Fixtures.searchResults)
         (Fixtures.askIn "vpn" "All" "Policy"))
  = fst (POST Fixtures.searchResults Fixtures.searchLive
           (Fixtures.indexAnswers Fixtures.searchResults)
           (Fixtures.askIn "vpn" "All" "All")).
Proof.
  apply (proj2 (docType_not_sent Fixtures.searchResults Fixtures.searchLive
                  (Fixtures.indexAnswers Fixtures.searchResults)
                  (Fixtures.askIn "vpn" "All" "All") (Some "Policy"))).
  reflexivity.
Defined.

Lemma withoutScore_boost terms r : withoutScore (boost terms r) = withoutScore r.
Proof. reflexivity. Qed.

(** X3. In mock mode the query decides scores and order only: with an
    empty query the answer is the mock list cut down by the two filters, in
    its order, and with any query the answer holds the same documents,
    each as often. *)
Theorem query_keeps_documents
    (mock : list SearchResult) (env : Env)
    (fetch : SearchFetch -> FetchOutcome (list SearchResult))
    (body : SearchRequestBody) :
  resp_source (fst (POST mock env fetch body)) = "mock" ->
  (queryOf body = "" ->
   results (fst (POST mock env fetch body))
   = List.filter (meetsFilters (departmentOf body) (docTypeOf body)) mock)
  /\ Permutation
       (map withoutScore (results (fst (POST mock env fetch body))))
       (map withoutScore
            (List.filter (meetsFilters (departmentOf body) (docTypeOf body)) mock)).
Proof.
  intros Hmock. rewrite (mock_response_results mock env fetch body Hmock).
  fold (queryOf body) (departmentOf body) (docTypeOf body).
  rewrite mockResults_eq. split.
  - intros ->. reflexivity.
  - destruct (queryOf body =? ""); [apply Permutation_refl|].
    eapply perm_trans; [apply Permutation_map, sort_perm|].
    rewrite map_map. apply Permutation_refl.
Qed.

Lemma query_keeps_documents_witness :
  Permutation
    (map withoutScore
         (results (fst (POST Fixtures.searchResults Fixtures.searchOffline
                          Fixtures.indexDown (Fixtures.askIn "time off" "HR" "All")))))
    (map withoutScore (List.filter (meetsFilters "HR" "All") Fixtures.searchResults)).
Proof.
  apply (query_keeps_documents Fixtures.searchResults Fixtures.searchOffline
           Fixtures.indexDown (Fixtures.askIn "time off" "HR" "All")).
  reflexivity.
Defined.






Lemma byScoreDesc_strict x y :
  Qle_bool (byScoreDesc x y) 0 = false -> (score x < score y)%Q.
Proof.
  unfold byScoreDesc. intros E.
  destruct (Qlt_le_dec (score x) (score y)) as [H|H]; [exact H|].
  assert (Hle : (score y - score x <= 0)%Q) by lra.
  apply Qle_bool_iff in Hle. congruence.
Qed.

Lemma scored_insert v x l :
  List.filter (scored v) (JS.insert byScoreDesc x l)
  = List.filter (scored v) (x :: l).
Proof.
  induction l as [|y l IH]; [reflexivity|].
  cbn [JS.insert]. destruct (Qle_bool (byScoreDesc x y) 0) eqn:E; [reflexivity|].
  apply byScoreDesc_strict in E.
  cbn [List.filter] in *. rewrite IH.
  destruct (scored v x) eqn:Ex; [|reflexivity].
  destruct (scored v y) eqn:Ey; [|reflexivity].
  exfalso. unfold scored in *. apply Qeq_bool_iff in Ex, Ey. lra.
Qed.

Lemma scored_sort v l :
  List.filter (scored v) (JS.sort byScoreDesc l) = List.filter (scored v) l.
Proof.
  induction l as [|x l IH]; [reflexivity|].
  cbn [JS.sort fold_right]. fold (JS.sort byScoreDesc l).
  rewrite scored_insert. cbn [List.filter]. now rewrite IH.
Qed.

(** X5. The sort is stable where it matters: in mock mode the results
    that end up with one and the same score come in the order the mock list
    has them. *)
Theorem ties_keep_mock_order
    (mock : list SearchResult) (env : Env)
    (fetch : SearchFetch -> FetchOutcome (list SearchResult))
    (body : SearchRequestBody) (v : Q) :
  resp_source (fst (POST mock env fetch body)) = "mock" ->
  queryOf body <> "" ->
  List.filter (scored v) (results (fst (POST mock env fetch body)))
  = List.filter (scored v)
      (map (boost (searchTerms body))
           (List.filter (meetsFilters (departmentOf body) (docTypeOf body)) mock)).
Proof.
  intros Hmock Hq. rewrite (mock_response_results mock env fetch body Hmock).
  fold (queryOf body) (departmentOf body) (docTypeOf body).
  rewrite mockResults_eq. apply String.eqb_neq in Hq. rewrite Hq.
  apply scored_sort.
Qed.

Lemma ties_keep_mock_order_witness :
  map id
      (List.filter (scored (85 # 100))
         (results (fst (POST (Fixtures.searchResults ++ Fixtures.searchResults)%list
                          Fixtures.searchOffline Fixtures.indexDown
                          (Fixtures.askAll "zzz")))))
  = ["sr-4"; "sr-4"].
Proof.
  rewrite (ties_keep_mock_order (Fixtures.searchResults ++ Fixtures.searchResults)%list
             Fixtures.searchOffline Fixtures.indexDown (Fixtures.askAll "zzz")
             (85 # 100)).
  - reflexivity.
  - reflexivity.
  - discriminate.
Defined.

Lemma toLowerCase_empty q : JS.toLowerCase q = "" <-> q = "".
Proof. destruct q; simpl; split; intros H; try reflexivity; discriminate. Qed.

(** X6. Mock scoring does not see the case of the query: two queries that
    are equal once lowercased get the same mock answer. *)
Theorem query_case_ignored
    (mock : list SearchResult) (env : Env)
    (fetch : SearchFetch -> FetchOutcome (list SearchResult))
    (body : SearchRequestBody) (q : string) :
  resp_source (fst (POST mock env fetch body)) = "mock" ->
  resp_source (fst (POST mock env fetch (withQuery q body))) = "mock" ->
  JS.toLowerCase q = JS.toLowerCase (queryOf body) ->
  results (fst (POST mock env fetch (withQuery q body)))
  = results (fst (POST mock env fetch body)).
Proof.
  intros H1 H2 Hq.
  rewrite (mock_response_results mock env fetch body H1).
  rewrite (mock_response_results mock env fetch (withQuery q body) H2).
  fold (queryOf body) (departmentOf body) (docTypeOf body).
  cbn [withQuery body_query body_department body_docType JS.nullish].
  fold (departmentOf body) (docTypeOf body).
  rewrite !mockResults_eq, Hq.
  assert (E : (q =? "") = (queryOf body =? "")).
  { destruct (String.eqb_spec q "") as [->|Hn], (String.eqb_spec (queryOf body) "") as [E|E];
      try reflexivity; exfalso.
    - apply E, toLowerCase_empty. now rewrite <- Hq.
    - apply Hn, toLowerCase_empty. rewrite Hq, E. reflexivity. }
  now rewrite E.
Qed.

Lemma query_case_ignored_witness :
  results (fst (POST Fixtures.searchResults Fixtures.searchOffline Fixtures.indexDown
                  (withQuery "pto POLICY" (Fixtures.askAll "PTO Policy"))))
  = results (fst (POST Fixtures.searchResults Fixtures.searchOffline Fixtures.indexDown
                    (Fixtures.askAll "PTO Policy"))).
Proof.
  apply (query_case_ignored Fixtures.searchResults Fixtures.searchOffline
           Fixtures.indexDown (Fixtures.askAll "PTO Policy") "pto POLICY");
    reflexivity.
Defined.

Lemma is_space_lower c : JS.is_space (JS.lower_ascii c) = JS.is_space c.
Proof. destruct c as [[] [] [] [] [] [] [] []]; reflexivity. Qed.

Lemma split_after_blank s cur :
  match s with
  | EmptyString => True
  | String d _ => JS.is_space d = false
  end ->
  JS.split_ws_from s cur true = JS.split_ws_from s cur false.
Proof.
  destruct s as [|d s]; [reflexivity|]. intros Hd. simpl. now rewrite Hd.
Qed.

(** X7. A blank in front of a query is a term of its own, the empty one,
    and the empty term is found in every result: each result counts one
    match more than for the same query without the blank. *)
Theorem leading_blank_matches_all (c : ascii) (q : string) (r : SearchResult) :
  JS.is_space c = true ->
  match q with
  | EmptyString => True
  | String d _ => JS.is_space d = false
  end ->
  termMatches (JS.split_ws (JS.toLowerCase (String c q))) r
  = S (termMatches (JS.split_ws (JS.toLowerCase q)) r).
Proof.
  intros Hc Hq. unfold JS.split_ws. cbn [JS.toLowerCase JS.split_ws_from].
  rewrite is_space_lower, Hc.
  rewrite split_after_blank.
  - unfold termMatches. cbn [List.filter].
    replace (JS.includes (resultText r) "") with true; [reflexivity|].
    destruct (resultText r); reflexivity.
  - destruct q as [|d q']; [exact I|]. cbn [JS.toLowerCase].
    now rewrite is_space_lower.
Qed.

Lemma leading_blank_matches_all_witness :
  Forall (fun r => termMatches (JS.split_ws (JS.toLowerCase " vpn")) r
                   = S (termMatches (JS.split_ws (JS.toLowerCase "vpn")) r))
    Fixtures.searchResults.
Proof.
  apply Forall_forall. intros r _.
  apply (leading_blank_matches_all " " "vpn" r); reflexivity.
Defined.

End SearchMore.

(** ** /api/chat *)

Module ChatMore.
Import ChatRoute.

(** X8. Whatever goes wrong with the model (the call rejects, the status
    is not OK, the body cannot be read), the answer is the mock answer for
    the message. *)
Theorem chat_failure_serves_mock
    (mock : string -> string * list Citation) (env : Env)
    (fetch : ChatFetch -> FetchOutcome CompletionData)
    (body : ChatRequestBody) :
  (forall data,
     fetch (completionRequest env (message body) (historyOf body))
     <> FetchResolves true (Some data)) ->
  fst (POST mock env fetch body)
  = {| response := fst (mock (message body));
       resp_citations := snd (mock (message body));
       resp_source := "mock" |}.
Proof.
  intros Hfail. unfold POST. cbv zeta. fold (historyOf body).
  destruct (configured env).
  - destruct (fetch _) as [|[|] [data|]] eqn:E;
      try (destruct (mock (message body)); reflexivity).
    exfalso. exact (Hfail data eq_refl).
  - destruct (mock (message body)); reflexivity.
Qed.

Lemma chat_failure_serves_mock_witness :
  fst (POST Fixtures.mockChat Fixtures.chatLive Fixtures.modelDown
         (Fixtures.ask "How much PTO?" Fixtures.longHistory))
  = {| response := "Here is what the handbook says.";
       resp_citations := snd (Fixtures.mockChat "How much PTO?");
       resp_source := "mock" |}.
Proof.
  apply (chat_failure_serves_mock Fixtures.mockChat Fixtures.chatLive
           Fixtures.modelDown (Fixtures.ask "How much PTO?" Fixtures.longHistory)).
  intros data. discriminate.
Defined.

(** The handler sees the history only through the messages it builds. *)
Lemma POST_by_messages mock env fetch text h1 h2 :
  buildMessages text h1 = buildMessages text h2 ->
  POST mock env fetch (asking text h1) = POST mock env fetch (asking text h2).
Proof.
  intros E. unfold POST, asking, completionRequest. cbv zeta. simpl.
  now rewrite E.
Qed.

Lemma slice_last_six_app {A} (pre h : list A) :
  6 <= List.length h -> JS.slice (-6) (pre ++ h)%list = JS.slice (-6) h.
Proof.
  intros Hlen. rewrite !ChatClaims.slice_last_six, length_app, skipn_app.
  replace (List.length pre + List.length h - 6 - List.length pre)
    with (List.length h - 6) by lia.
  rewrite skipn_all2 by lia. reflexivity.
Qed.

(** X9. Once the history holds six messages, what came before them has no
    effect at all: the request to the model and the response are the
    same with and without the older messages. *)
Theorem old_history_has_no_effect
    (mock : string -> string * list Citation) (env : Env)
    (fetch : ChatFetch -> FetchOutcome CompletionData)
    (text : string) (pre h : list ChatMessage) :
  6 <= List.length h ->
  POST mock env fetch (asking text (pre ++ h)%list)
  = POST mock env fetch (asking text h).
Proof.
  intros Hlen. apply POST_by_messages. unfold buildMessages.
  now rewrite slice_last_six_app.
Qed.

Lemma old_history_has_no_effect_witness :
  POST Fixtures.mockChat Fixtures.chatLive (Fixtures.modelSays "ok")
    (asking "And then?" Fixtures.longHistory)
  = POST Fixtures.mockChat Fixtures.chatLive (Fixtures.modelSays "ok")
      (asking "And then?" (skipn 2 Fixtures.longHistory)).
Proof.
  apply (old_history_has_no_effect Fixtures.mockChat Fixtures.chatLive
           (Fixtures.modelSays "ok") "And then?"
           (firstn 2 Fixtures.longHistory) (skipn 2 Fixtures.longHistory)).
  simpl. lia.
Defined.

Lemma sameTalk_skipn n : forall h1 h2,
  sameTalk h1 h2 -> sameTalk (skipn n h1) (skipn n h2).
Proof.
  induction n as [|n IH]; intros h1 h2 H; [exact H|].
  destruct H; simpl; [constructor | now apply IH].
Qed.

Lemma sameTalk_forwarded h1 h2 :
  sameTalk h1 h2 -> map forwarded h1 = map forwarded h2.
Proof.
  induction 1 as [|a b h1 h2 [Hr Hc] _ IH]; simpl; [reflexivity|].
  unfold forwarded at 1 3. now rewrite Hr, Hc, IH.
Qed.

(** X10. Of a history message only the role and the content count: ids,
    citations and timestamps of the history change neither the request to
    the model nor the response. *)
Theorem only_role_and_content_count
    (mock : string -> string * list Citation) (env : Env)
    (fetch : ChatFetch -> FetchOutcome CompletionData)
    (text : string) (h1 h2 : list ChatMessage) :
  sameTalk h1 h2 ->
  POST mock env fetch (asking text h1) = POST mock env fetch (asking text h2).
Proof.
  intros H. apply POST_by_messages. unfold buildMessages.
  rewrite !ChatClaims.slice_last_six.
  rewrite (Forall2_length H).
  now rewrite (sameTalk_forwarded _ _ (sameTalk_skipn _ _ _ H)).
Qed.

Lemma only_role_and_content_count_witness :
  POST Fixtures.mockChat Fixtures.chatLive (Fixtures.modelSays "ok")
    (asking "And then?" [Fixtures.said "1" user "first question"])
  = POST Fixtures.mockChat Fixtures.chatLive (Fixtures.modelSays "ok")
      (asking "And then?"
         [ {| msg_id := "other"; role := user; content := "first question";
              citations := Some []; timestamp := "later" |} ]).
Proof.
  apply (only_role_and_content_count Fixtures.mockChat Fixtures.chatLive
           (Fixtures.modelSays "ok") "And then?").
  repeat constructor.
Defined.

End ChatMore.

(** ** The chat panel *)

Module ChatPanelFacts.
Import ChatPanel.

Lemma sendStart_blocked t text st :
  JS.trim text = "" \/ loading st = true -> sendStart t text st = None.
Proof.
  intros H. unfold sendStart.
  replace ((JS.trim text =? "") || loading st) with true; [reflexivity|].
  symmetry. apply orb_true_iff.
  destruct H as [-> | ->]; [left | right]; reflexivity.
Qed.

Lemma sendStart_open t text st :
  JS.trim text <> "" -> loading st = false ->
  sendStart t text st
  = Some ({| messages := (messages st ++ [userMessage t text])%list;
             input := ""; loading := true |},
          {| ChatRoute.message := JS.trim text;
             ChatRoute.history := Some (messages st) |}).
Proof.
  intros Htext Hload. unfold sendStart.
  apply String.eqb_neq in Htext. now rewrite Htext, Hload.
Qed.

Lemma settle_after_question t out u st :
  settle t out {| messages := (messages st ++ [u])%list; input := ""; loading := true |}
  = {| messages := (messages st
                    ++ [u; match out with
                           | FetchResolves _ (Some data) => assistantMessage t data
                           | _ => errorMessage t
                           end])%list;
       input := ""; loading := false |}.
Proof. unfold settle. cbn [messages input]. now rewrite <- app_assoc. Qed.

Lemma reply_is_assistant t (out : FetchOutcome ChatReply) :
  role (match out with
        | FetchResolves _ (Some data) => assistantMessage t data
        | _ => errorMessage t
        end) = assistant.
Proof. destruct out as [|ok [data|]]; reflexivity. Qed.

(** A text that is blank once trimmed, or any text while an answer
    is pending, changes nothing and sends nothing. *)
Theorem blank_or_busy_sends_nothing
    (server : ChatRoute.ChatRequestBody -> FetchOutcome ChatReply)
    (t1 t2 : Tick) (text : string) (st : State) :
  JS.trim text = "" \/ loading st = true ->
  sendMessage server t1 t2 text st = (st, []).
Proof.
  intros H. unfold sendMessage. now rewrite (sendStart_blocked t1 text st H).
Qed.

Lemma blank_or_busy_sends_nothing_witness :
  sendMessage (fun _ => FetchRejects) Fixtures.noon Fixtures.noon "   "
    (initial Fixtures.noon)
  = (initial Fixtures.noon, []).
Proof.
  apply (blank_or_busy_sends_nothing (fun _ => FetchRejects) Fixtures.noon
           Fixtures.noon "   " (initial Fixtures.noon)).
  left. reflexivity.
Defined.

(** X11. A send that goes through appends the trimmed question and then
    exactly one assistant message, clears the input and ends not loading.
    The request carries the trimmed text and, as history, the messages from
    before the question. A body that can be read is shown as the answer
    whatever the status of the response; anything else gives the
    apology. *)
Theorem send_appends_exchange
    (server : ChatRoute.ChatRequestBody -> FetchOutcome ChatReply)
    (t1 t2 : Tick) (text : string) (st : State) :
  JS.trim text <> "" ->
  loading st = false ->
  let req := {| ChatRoute.message := JS.trim text;
                ChatRoute.history := Some (messages st) |} in
  exists reply,
    sendMessage server t1 t2 text st
    = ({| messages := (messages st ++ [userMessage t1 text; reply])%list;
          input := "";
          loading := false |}, [req])
    /\ role reply = assistant
    /\ (forall ok data, server req = FetchResolves ok (Some data) ->
          reply = assistantMessage t2 data)
    /\ ((forall ok data, server req <> FetchResolves ok (Some data)) ->
          reply = errorMessage t2).
Proof.
  intros Htext Hload req. unfold sendMessage.
  rewrite (sendStart_open t1 text st Htext Hload). fold req.
  rewrite settle_after_question.
  eexists. split; [reflexivity|]. split; [apply reply_is_assistant|]. split.
  - intros ok data ->. reflexivity.
  - intros Hfail. destruct (server req) as [|ok [data|]]; try reflexivity.
    exfalso. exact (Hfail ok data eq_refl).
Qed.

Lemma send_appends_exchange_witness :
  exists reply,
    sendMessage (fun _ => FetchResolves false
                            (Some {| reply_response := "try later";
                                     reply_citations := [] |}))
      Fixtures.noon Fixtures.noon "  hello " (initial Fixtures.noon)
    = ({| messages := [welcome Fixtures.noon; userMessage Fixtures.noon "  hello ";
                       reply];
          input := ""; loading := false |},
       [ {| ChatRoute.message := "hello";
            ChatRoute.history := Some [welcome Fixtures.noon] |} ])
    /\ content reply = "try later".
Proof.
  destruct (send_appends_exchange
              (fun _ => FetchResolves false
                          (Some {| reply_response := "try later";
                                   reply_citations := [] |}))
              Fixtures.noon Fixtures.noon "  hello " (initial Fixtures.noon))
    as (reply & Hsend & _ & Hok & _).
  - discriminate.
  - reflexivity.
  - exists reply. split; [exact Hsend|].
    now rewrite (Hok false _ eq_refl).
Defined.

(** X12. The send button is disabled exactly when submitting would do
    nothing. *)
Theorem submit_disabled_iff_noop
    (server : ChatRoute.ChatRequestBody -> FetchOutcome ChatReply)
    (t1 t2 : Tick) (st : State) :
  submitDisabled st = true <-> handleSubmit server t1 t2 st = (st, []).
Proof.
  unfold handleSubmit, submitDisabled, sendMessage. split.
  - intros H. rewrite sendStart_blocked; [reflexivity|].
    apply orb_true_iff in H. destruct H as [H|H]; [right; exact H|].
    left. now apply String.eqb_eq.
  - intros H. unfold sendStart in H.
    rewrite orb_comm. destruct ((JS.trim (input st) =? "") || loading st);
      [reflexivity | discriminate H].
Qed.

Lemma submit_disabled_iff_noop_witness :
  submitDisabled (initial Fixtures.noon) = true.
Proof.
  apply (proj2 (submit_disabled_iff_noop (fun _ => FetchRejects) Fixtures.noon
                  Fixtures.noon (initial Fixtures.noon))).
  reflexivity.
Defined.

Lemma takesTurns_exchange u a : forall l who,
  role u = user -> role a = assistant ->
  takesTurns who l = true ->
  (if Nat.even (List.length l) then who = user else who = assistant) ->
  takesTurns who (l ++ [u; a])%list = true.
Proof.
  intros l who Hu Ha. revert who.
  induction l as [|m l IH]; intros who Hturn Hpar.
  - simpl in Hpar. subst who. simpl. now rewrite Hu, Ha.
  - cbn [List.length] in Hpar. rewrite Nat.even_succ, <- Nat.negb_even in Hpar.
    specialize (IH (match who with user => assistant | assistant => user end)).
    destruct (Nat.even (List.length l)); cbn [negb] in Hpar; subst who;
      simpl in *; destruct (role m); try discriminate; now apply IH.
Qed.

Lemma settled_step t0 e st :
  settled t0 st ->
  settled t0 (fst (sendMessage (send_server e) (send_start e) (send_end e)
                     (send_text e) st)).
Proof.
  intros (Hload & Hodd & Hturn & Hhd). unfold sendMessage.
  destruct (String.eqb_spec (JS.trim (send_text e)) "") as [E|E].
  - rewrite sendStart_blocked by (left; exact E).
    repeat split; assumption.
  - rewrite (sendStart_open _ _ st E Hload), settle_after_question.
    unfold settled. simpl. split; [reflexivity|]. split; [|split].
    + rewrite length_app. cbn [List.length]. rewrite Nat.add_comm.
      cbn [Nat.add]. now rewrite !Nat.even_succ_succ.
    + apply takesTurns_exchange;
        [reflexivity | apply reply_is_assistant | exact Hturn|].
      now rewrite Hodd.
    + destruct (messages st); [discriminate Hhd | exact Hhd].
Qed.

(** X13. However the panel is used, its transcript starts with the
    welcome message and then question and answer take turns, the last word
    being the assistant's; no request is left pending; and the suggested
    prompts are shown exactly as long as the transcript is the welcome
    message alone. *)
Theorem transcript_takes_turns (t0 : Tick) (sends : list Send) :
  loading (after sends (initial t0)) = false
  /\ Nat.even (List.length (messages (after sends (initial t0)))) = false
  /\ takesTurns assistant (messages (after sends (initial t0))) = true
  /\ hd_error (messages (after sends (initial t0))) = Some (welcome t0)
  /\ (showsPrompts (after sends (initial t0)) = true
      <-> messages (after sends (initial t0)) = [welcome t0]).
Proof.
  assert (H : forall sends st, settled t0 st -> settled t0 (after sends st)).
  { intros l. induction l as [|e l IH]; intros st Hst; [exact Hst|].
    apply IH, settled_step, Hst. }
  specialize (H sends (initial t0)).
  destruct H as (H1 & H2 & H3 & H4); [repeat split|].
  repeat split; try assumption.
  - unfold showsPrompts. intros E. apply Nat.eqb_eq in E.
    destruct (messages (after sends (initial t0))) as [|m [|m' l]];
      try discriminate. simpl in H4. congruence.
  - intros E. unfold showsPrompts. rewrite E. reflexivity.
Qed.

Lemma transcript_takes_turns_witness :
  takesTurns assistant
    (messages
       (after [ {| send_server := fun _ => FetchRejects;
                   send_start := Fixtures.noon; send_end := Fixtures.noon;
                   send_text := "How much PTO?" |};
                {| send_server := fun _ => FetchRejects;
                   send_start := Fixtures.noon; send_end := Fixtures.noon;
                   send_text := "  " |} ]
              (initial Fixtures.noon))) = true.
Proof.
  apply (transcript_takes_turns Fixtures.noon
           [ {| send_server := fun _ => FetchRejects;
                send_start := Fixtures.noon; send_end := Fixtures.noon;
                send_text := "How much PTO?" |};
             {| send_server := fun _ => FetchRejects;
                send_start := Fixtures.noon; send_end := Fixtures.noon;
                send_text := "  " |} ]).
Defined.

Lemma route_citations mock env fetch body :
  (ChatRoute.resp_source (fst (ChatRoute.POST mock env fetch body)) = "azure" ->
   ChatRoute.resp_citations (fst (ChatRoute.POST mock env fetch body)) = [])
  /\ (ChatRoute.resp_source (fst (ChatRoute.POST mock env fetch body)) = "mock" ->
      ChatRoute.resp_citations (fst (ChatRoute.POST mock env fetch body))
      = snd (mock (ChatRoute.message body))).
Proof.
  unfold ChatRoute.POST. destruct (ChatRoute.configured env).
  - destruct (fetch _) as [|[|] [data|]]; simpl;
      destruct (mock (ChatRoute.message body)); simpl; split; intros H;
      try reflexivity; discriminate H.
  - destruct (mock (ChatRoute.message body)); simpl; split; intros H;
      try reflexivity; discriminate H.
Qed.

(** X17. With the route handler behind the panel, what is appended after
    the question is the handler's answer: its text and its citations. An
    answer that came from the model is shown without a Sources block; a
    mock answer shows one exactly when the mock data cite something. *)
Theorem panel_shows_route_answer
    (getMockChatResponse : string -> string * list Citation)
    (env : ChatRoute.Env)
    (fetch : ChatFetch -> FetchOutcome ChatRoute.CompletionData)
    (t1 t2 : Tick) (text : string) (st : State) :
  JS.trim text <> "" ->
  loading st = false ->
  let r := fst (ChatRoute.POST getMockChatResponse env fetch
                  {| ChatRoute.message := JS.trim text;
                     ChatRoute.history := Some (messages st) |}) in
  exists reply,
    messages (fst (sendMessage (routeServer getMockChatResponse env fetch)
                     t1 t2 text st))
    = (messages st ++ [userMessage t1 text; reply])%list
    /\ content reply = ChatRoute.response r
    /\ citations reply = Some (ChatRoute.resp_citations r)
    /\ (ChatRoute.resp_source r = "azure" -> showsSources reply = false)
    /\ (ChatRoute.resp_source r = "mock" ->
        (showsSources reply = true
         <-> snd (getMockChatResponse (JS.trim text)) <> [])).
Proof.
  intros Htext Hload r.
  destruct (route_citations getMockChatResponse env fetch
              {| ChatRoute.message := JS.trim text;
                 ChatRoute.history := Some (messages st) |}) as [Hazure Hmock].
  fold r in Hazure, Hmock. cbn [ChatRoute.message] in Hmock.
  unfold sendMessage.
  rewrite (sendStart_open t1 text st Htext Hload), settle_after_question.
  unfold routeServer. fold r. cbn [fst messages].
  eexists. split; [reflexivity|]. cbn [assistantMessage content citations].
  split; [reflexivity|]. split; [reflexivity|].
  unfold showsSources. cbn [citations]. split.
  - intros Hsrc. now rewrite (Hazure Hsrc).
  - intros Hsrc. rewrite (Hmock Hsrc).
    destruct (snd (getMockChatResponse (JS.trim text))); split;
      intros H; try reflexivity; try discriminate; congruence.
Qed.

Lemma panel_shows_route_answer_witness :
  exists reply,
    messages (fst (sendMessage
                     (routeServer Fixtures.mockChat Fixtures.chatLive
                        (Fixtures.modelSays "You accrue 15 days."))
                     Fixtures.noon Fixtures.noon "How much PTO?"
                     (initial Fixtures.noon)))
    = [welcome Fixtures.noon; userMessage Fixtures.noon "How much PTO?"; reply]
    /\ content reply = "You accrue 15 days."
    /\ showsSources reply = false.
Proof.
  destruct (panel_shows_route_answer Fixtures.mockChat Fixtures.chatLive
              (Fixtures.modelSays "You accrue 15 days.")
              Fixtures.noon Fixtures.noon "How much PTO?" (initial Fixtures.noon))
    as (reply & Hmsgs & Hcontent & _ & Hazure & _).
  - discriminate.
  - reflexivity.
  - exists reply. split; [exact Hmsgs|]. split; [exact Hcontent|].
    apply Hazure. reflexivity.
Defined.

End ChatPanelFacts.

(** ** From page to page: the query string *)

Module UrlFacts.

Lemma encodeByte_calm c :
  JS.all_chars (fun c => negb (splitsQuery c)) (JS.encodeByte c) = true.
Proof. destruct c as [[] [] [] [] [] [] [] []]; reflexivity. Qed.

Lemma encodeByte_decoded c rest :
  JS.percentDecode (JS.encodeByte c ++ rest) = String c (JS.percentDecode rest).
Proof. destruct c as [[] [] [] [] [] [] [] []]; reflexivity. Qed.

Lemma encode_calm s :
  JS.all_chars (fun c => negb (splitsQuery c)) (JS.encodeURIComponent s) = true.
Proof.
  induction s as [|c s IH]; [reflexivity|].
  cbn [JS.encodeURIComponent]. now rewrite all_chars_app, encodeByte_calm, IH.
Qed.

Lemma encode_decoded s : JS.percentDecode (JS.encodeURIComponent s) = s.
Proof.
  induction s as [|c s IH]; [reflexivity|].
  cbn [JS.encodeURIComponent]. now rewrite encodeByte_decoded, IH.
Qed.



Section Calm.
Variable v : string.
Hypothesis calm : JS.all_chars (fun c => negb (splitsQuery c)) v = true.

Lemma calm_no (sep : ascii) :
  splitsQuery sep = true ->
  JS.all_chars (fun c => negb (Ascii.eqb c sep)) v = true.
Proof.
  intros Hsep. revert calm. induction v as [|c w IH]; [reflexivity|].
  cbn [JS.all_chars]. intros H. apply andb_true_iff in H. destruct H as [Hc Hw].
  rewrite (IH Hw), andb_true_r.
  destruct (Ascii.eqb_spec c sep) as [->|]; [|reflexivity].
  rewrite Hsep in Hc. discriminate.
Qed.
End Calm.

Lemma cutAt_absent sep v :
  JS.all_chars (fun c => negb (Ascii.eqb c sep)) v = true ->
  JS.cutAt sep v = (v, None).
Proof.
  induction v as [|c v IH]; [reflexivity|].
  cbn [JS.all_chars JS.cutAt]. intros H.
  apply andb_true_iff in H. destruct H as [Hc Hv].
  apply negb_true_iff in Hc. now rewrite Hc, IH.
Qed.

Lemma splitOn_absent sep v :
  JS.all_chars (fun c => negb (Ascii.eqb c sep)) v = true ->
  JS.splitOn sep v = [v].
Proof.
  induction v as [|c v IH]; [reflexivity|].
  cbn [JS.all_chars JS.splitOn]. intros H.
  apply andb_true_iff in H. destruct H as [Hc Hv].
  apply negb_true_iff in Hc. now rewrite Hc, IH.
Qed.

Lemma plusToSpace_absent v :
  JS.all_chars (fun c => negb (Ascii.eqb c "+")) v = true ->
  JS.plusToSpace v = v.
Proof.
  induction v as [|c v IH]; [reflexivity|].
  cbn [JS.all_chars JS.plusToSpace]. intros H.
  apply andb_true_iff in H. destruct H as [Hc Hv].
  apply negb_true_iff in Hc. now rewrite Hc, IH.
Qed.

Lemma pushed_q v :
  JS.all_chars (fun c => negb (splitsQuery c)) v = true ->
  JS.formParse (JS.urlQuery ("/search?q=" ++ v)) = [("q", JS.percentDecode v)].
Proof.
  intros Hv. unfold JS.urlQuery.
  rewrite (cutAt_absent "#" ("/search?q=" ++ v))
    by (rewrite all_chars_app; rewrite (calm_no v Hv "#" eq_refl); reflexivity).
  cbn [fst].
  replace (JS.cutAt "?" ("/search?q=" ++ v)) with ("/search", Some ("q=" ++ v))
    by reflexivity.
  cbn [snd JS.nullish]. unfold JS.formParse.
  rewrite (splitOn_absent "&" ("q=" ++ v))
    by (rewrite all_chars_app; rewrite (calm_no v Hv "&" eq_refl); reflexivity).
  cbn [List.filter].
  replace (negb ("q=" ++ v =? "")) with true by reflexivity.
  cbn [map]. unfold JS.formPair.
  replace (JS.cutAt "=" ("q=" ++ v)) with ("q", Some v) by reflexivity.
  cbv beta iota zeta. cbn [JS.nullish].
  rewrite (plusToSpace_absent v (calm_no v Hv "+" eq_refl)).
  reflexivity.
Qed.


(** X14. The query typed on the home page or in the navigation bar
    arrives on the search page as it was typed, trimmed: a blank query does
    not navigate, and any other is escaped into a URL from which the search
    page reads back the trimmed text, with no department. A search page that
    is mounted on that URL, as it is when the reader comes from another
    page, then sends one search for the trimmed text in all departments and
    document types. The query is ASCII text. *)
Theorem hero_query_round_trip (heroQuery : string) :
  asciiText heroQuery = true ->
  (JS.trim heroQuery = "" ->
   HomePage.handleHeroSearch heroQuery = None
   /\ Navbar.handleSearch heroQuery = None)
  /\ (JS.trim heroQuery <> "" ->
      exists url,
        HomePage.handleHeroSearch heroQuery = Some url
        /\ Navbar.handleSearch heroQuery = Some url
        /\ SearchPage.initialQ url = JS.trim heroQuery
        /\ SearchPage.initialDept url = "All"
        /\ forall server,
             snd (SearchPage.mountEffect server url)
             = [ {| SearchRoute.body_query := Some (JS.trim heroQuery);
                    SearchRoute.body_department := Some "All";
                    SearchRoute.body_docType := Some "All" |} ]).
Proof.
  intros _. unfold HomePage.handleHeroSearch, Navbar.handleSearch. split.
  - intros ->. split; reflexivity.
  - intros Hq. apply String.eqb_neq in Hq. rewrite Hq. cbn [negb].
    eexists. split; [reflexivity|]. split; [reflexivity|].
    assert (HQ : SearchPage.initialQ
                   ("/search?q=" ++ JS.encodeURIComponent (JS.trim heroQuery))
                 = JS.trim heroQuery).
    { unfold SearchPage.initialQ, JS.searchParamsGet.
      rewrite (pushed_q _ (encode_calm (JS.trim heroQuery))), encode_decoded.
      reflexivity. }
    assert (HD : SearchPage.initialDept
                   ("/search?q=" ++ JS.encodeURIComponent (JS.trim heroQuery))
                 = "All").
    { unfold SearchPage.initialDept, JS.searchParamsGet.
      rewrite (pushed_q _ (encode_calm (JS.trim heroQuery))). reflexivity. }
    split; [exact HQ|]. split; [exact HD|].
    intros server. unfold SearchPage.mountEffect, SearchPage.mount. cbv zeta.
    cbn [SearchPage.query SearchPage.dept SearchPage.docType].
    rewrite HQ, HD. unfold SearchPage.searches. rewrite Hq. reflexivity.
Qed.

Lemma hero_query_round_trip_witness :
  exists url,
    HomePage.handleHeroSearch " Who approves R&D + travel? " = Some url
    /\ Navbar.handleSearch " Who approves R&D + travel? " = Some url
    /\ SearchPage.initialQ url = "Who approves R&D + travel?"
    /\ SearchPage.initialDept url = "All"
    /\ forall server,
         snd (SearchPage.mountEffect server url)
         = [ {| SearchRoute.body_query := Some "Who approves R&D + travel?";
                SearchRoute.body_department := Some "All";
                SearchRoute.body_docType := Some "All" |} ].
Proof.
  apply (proj2 (hero_query_round_trip " Who approves R&D + travel? " eq_refl)).
  discriminate.
Defined.

(** X15. The search form of the search page pushes a URL from which the
    page reads back the input value exactly, blanks included; a blank input
    value therefore leads to a page that does not search. *)
Theorem search_form_round_trip (st : SearchPage.State) :
  SearchPage.initialQ (snd (SearchPage.handleSearch st)) = SearchPage.inputValue st
  /\ SearchPage.initialDept (snd (SearchPage.handleSearch st)) = "All"
  /\ SearchPage.query (fst (SearchPage.handleSearch st)) = SearchPage.inputValue st
  /\ (SearchPage.inputValue st = "" ->
      SearchPage.searches (SearchPage.initialQ (snd (SearchPage.handleSearch st)))
        (SearchPage.initialDept (snd (SearchPage.handleSearch st))) = false).
Proof.
  unfold SearchPage.handleSearch, SearchPage.initialQ, SearchPage.initialDept,
    JS.searchParamsGet. cbn [fst snd SearchPage.query].
  rewrite (pushed_q _ (encode_calm (SearchPage.inputValue st))), encode_decoded.
  cbn. repeat split. intros ->. reflexivity.
Qed.

Lemma search_form_round_trip_witness :
  SearchPage.searches
    (SearchPage.initialQ
       (snd (SearchPage.handleSearch
               {| SearchPage.query := "pto"; SearchPage.inputValue := "";
                  SearchPage.results := []; SearchPage.loading := false;
                  SearchPage.dept := "All"; SearchPage.docType := "All" |})))
    "All" = false.
Proof.
  apply (proj2 (proj2 (proj2 (search_form_round_trip
           {| SearchPage.query := "pto"; SearchPage.inputValue := "";
              SearchPage.results := []; SearchPage.loading := false;
              SearchPage.dept := "All"; SearchPage.docType := "All" |})))).
  reflexivity.
Defined.



End UrlFacts.

(** ** The pages *)

Module PageFacts.

Lemma slice_first_three {A} (l : list A) : JS.slice_range 0 3 l = firstn 3 l.
Proof.
  unfold JS.slice_range, JS.relative_index. cbn [Z.ltb Z.compare].
  rewrite (Z.min_l 0) by lia. cbn [Z.to_nat skipn]. rewrite Z.sub_0_r.
  destruct (Z.min_spec 3 (Z.of_nat (List.length l))) as [[H ->]|[H ->]].
  - reflexivity.
  - rewrite Nat2Z.id. rewrite firstn_all. symmetry. apply firstn_all2. lia.
Qed.

(** X18. A department card lists the first three documents of the
    department, in the order of the mock data, and offers "View all" exactly
    when that leaves some document of the department out. *)
Theorem department_card (mockDocuments : list Document) (dept : string) :
  HomePage.listed mockDocuments dept = firstn 3 (HomePage.docs mockDocuments dept)
  /\ List.length (HomePage.listed mockDocuments dept) <= 3
  /\ Forall (fun d => In d mockDocuments /\ doc_department d = dept)
       (HomePage.listed mockDocuments dept)
  /\ (HomePage.viewAll mockDocuments dept = true
      <-> HomePage.listed mockDocuments dept <> HomePage.docs mockDocuments dept).
Proof.
  unfold HomePage.listed, HomePage.viewAll. rewrite slice_first_three.
  split; [reflexivity|]. split; [apply firstn_le_length|]. split.
  - apply Forall_forall. intros d Hd.
    assert (Hin : In d (HomePage.docs mockDocuments dept)).
    { rewrite <- (firstn_skipn 3 (HomePage.docs mockDocuments dept)).
      apply in_or_app. now left. }
    unfold HomePage.docs in Hin. apply filter_In in Hin.
    destruct Hin as [Hin E]. apply String.eqb_eq in E. now split.
  - rewrite Nat.ltb_lt. split.
    + intros Hlen E. apply (f_equal (@List.length _)) in E.
      rewrite length_firstn in E. lia.
    + intros Hne. destruct (Nat.lt_ge_cases 3 (List.length (HomePage.docs mockDocuments dept)))
        as [H|H]; [exact H|].
      exfalso. apply Hne. apply firstn_all2. exact H.
Qed.

Lemma department_card_witness :
  HomePage.viewAll Fixtures.documents "IT" = true
  /\ List.length (HomePage.listed Fixtures.documents "IT") <= 3.
Proof.
  destruct (department_card Fixtures.documents "IT") as (_ & Hlen & _ & Hall).
  split; [|exact Hlen]. apply Hall. discriminate.
Defined.

Lemma related_facts mock doc :
  List.length (DocPage.related mock doc) <= 3
  /\ Forall (fun d => In d mock /\ doc_id d <> doc_id doc
                      /\ doc_department d = doc_department doc)
       (DocPage.related mock doc).
Proof.
  unfold DocPage.related. rewrite slice_first_three.
  split; [apply firstn_le_length|].
  apply Forall_forall. intros d Hd.
  assert (Hin : In d (List.filter
                        (fun d => negb (doc_id d =? doc_id doc)
                                  && (doc_department d =? doc_department doc)) mock)).
  { rewrite <- (firstn_skipn 3 (List.filter _ mock)). apply in_or_app. now left. }
  apply filter_In in Hin. destruct Hin as [Hin E].
  apply andb_true_iff in E. destruct E as [E1 E2].
  apply negb_true_iff, String.eqb_neq in E1. apply String.eqb_eq in E2.
  now repeat split.
Qed.

(** X19. The document page shows "not found" exactly when no mock
    document has the id of the path. Otherwise it shows a document with that
    id, on page "1" when the URL names no page, with at most three related
    documents, all of the same department and none of them the document
    itself. *)
Theorem doc_page_view (mockDocuments : list Document) (id : string)
    (pageParam : option string) :
  (DocPage.DocPage mockDocuments id pageParam = DocPage.NotFound
   <-> forall d, In d mockDocuments -> doc_id d <> id)
  /\ (forall doc page breadcrumb prompts related,
        DocPage.DocPage mockDocuments id pageParam
        = DocPage.Viewer doc page breadcrumb prompts related ->
        In doc mockDocuments /\ doc_id doc = id
        /\ page = JS.nullish pageParam "1"
        /\ List.length related <= 3
        /\ Forall (fun d => In d mockDocuments /\ doc_id d <> id
                            /\ doc_department d = doc_department doc) related).
Proof.
  unfold DocPage.DocPage. cbv zeta.
  destruct (List.find (fun d => doc_id d =? id) mockDocuments) as [doc|] eqn:E.
  - apply find_some in E. destruct E as [Hin Hid]. apply String.eqb_eq in Hid.
    split.
    + split; [discriminate|]. intros H. exfalso. exact (H doc Hin Hid).
    + intros doc' page breadcrumb prompts related H. injection H as <- <- _ _ <-.
      split; [exact Hin|]. split; [exact Hid|]. split; [reflexivity|].
      rewrite <- Hid. apply related_facts.
  - split.
    + split; [|reflexivity]. intros _ d Hd Hid.
      pose proof (find_none _ _ E d Hd) as Hn. cbv beta in Hn.
      apply String.eqb_neq in Hn. contradiction.
    + intros doc page breadcrumb prompts related H. discriminate H.
Qed.

Lemma doc_page_view_witness :
  exists doc breadcrumb prompts related,
    DocPage.DocPage Fixtures.documents "doc-003" None
    = DocPage.Viewer doc "1" breadcrumb prompts related
    /\ doc_id doc = "doc-003"
    /\ List.length related <= 3
    /\ Forall (fun d => In d Fixtures.documents /\ doc_id d <> "doc-003"
                        /\ doc_department d = doc_department doc) related.
Proof.
  eexists. eexists. eexists. eexists. split; [reflexivity|].
  destruct (proj2 (doc_page_view Fixtures.documents "doc-003" None) _ _ _ _ _ eq_refl)
    as (_ & Hid & _ & Hlen & Hrel).
  split; [exact Hid|]. split; [exact Hlen | exact Hrel].
Defined.






(** X22. A search that fails (the call rejects or the body cannot be
    read) empties the list and ends the loading state, so that the page
    shows "No results found" whenever a query or a department is set: a
    failure looks like a search without results. *)
Theorem failed_search_looks_empty
    (server : SearchRoute.SearchRequestBody -> FetchOutcome (list SearchResult))
    (q department type : string) (st : SearchPage.State) :
  (forall ok data,
     server {| SearchRoute.body_query := Some q;
               SearchRoute.body_department := Some department;
               SearchRoute.body_docType := Some type |}
     <> FetchResolves ok (Some data)) ->
  SearchPage.results (fst (SearchPage.doSearch server q department type st)) = []
  /\ SearchPage.loading (fst (SearchPage.doSearch server q department type st)) = false
  /\ SearchPage.emptyState (fst (SearchPage.doSearch server q department type st))
     = negb (SearchPage.query st =? "") || negb (SearchPage.dept st =? "All").
Proof.
  intros Hfail. unfold SearchPage.doSearch, SearchPage.emptyState.
  cbn [fst SearchPage.results SearchPage.loading SearchPage.query SearchPage.dept].
  destruct (server _) as [|ok [data|]] eqn:E.
  - repeat split.
  - exfalso. exact (Hfail ok data eq_refl).
  - repeat split.
Qed.

Lemma failed_search_looks_empty_witness :
  SearchPage.emptyState
    (fst (SearchPage.doSearch (fun _ => FetchRejects) "pto" "All" "All"
            (Fixtures.idle "pto" "All"))) = true.
Proof.
  rewrite (proj2 (proj2 (failed_search_looks_empty (fun _ => FetchRejects)
                           "pto" "All" "All" (Fixtures.idle "pto" "All")
                           (fun ok data => ltac:(discriminate))))).
  reflexivity.
Defined.

End PageFacts.

(** ** Opening the chat panel with a query *)

Module PanelOpening.
Import ChatPanel.

Lemma trimStart_settled s :
  match s with
  | EmptyString => True
  | String c _ => JS.is_space c = false
  end ->
  JS.trimStart s = s.
Proof. destruct s as [|c s]; [reflexivity|]. simpl. now intros ->. Qed.

Lemma trimEnd_head c s :
  JS.is_space c = false ->
  exists t, JS.trimEnd (String c s) = String c t.
Proof.
  intros Hc. cbn [JS.trimEnd]. destruct (JS.trimEnd s) as [|d t].
  - rewrite Hc. now exists EmptyString.
  - now exists (String d t).
Qed.

Lemma trimStart_head s :
  match JS.trimStart s with
  | EmptyString => True
  | String c _ => JS.is_space c = false
  end.
Proof.
  induction s as [|c s IH]; [exact I|].
  cbn [JS.trimStart]. destruct (JS.is_space c) eqn:E; [exact IH | exact E].
Qed.

Lemma trimEnd_again s : JS.trimEnd (JS.trimEnd s) = JS.trimEnd s.
Proof.
  induction s as [|c s IH]; [reflexivity|].
  cbn [JS.trimEnd]. destruct (JS.trimEnd s) as [|d t] eqn:E.
  - destruct (JS.is_space c) eqn:Ec; [reflexivity|].
    cbn [JS.trimEnd]. now rewrite Ec.
  - change (JS.trimEnd (String c (String d t)))
      with (match JS.trimEnd (String d t) with
            | EmptyString =>
                if JS.is_space c then EmptyString else String c EmptyString
            | String d' t' => String c (String d' t')
            end).
    now rewrite IH.
Qed.

Lemma trim_again s : JS.trim (JS.trim s) = JS.trim s.
Proof.
  unfold JS.trim. rewrite trimStart_settled; [apply trimEnd_again|].
  pose proof (trimStart_head s) as H.
  destruct (JS.trimStart s) as [|c u]; [exact I|].
  destruct (trimEnd_head c u H) as (t & ->). exact H.
Qed.

Lemma openEffect_inert server t1 t2 props st :
  openEffect server t1 t2 props true st = (true, (st, [])).
Proof.
  unfold openEffect. destruct (open props); [|reflexivity].
  now rewrite andb_false_r.
Qed.

Lemma effectRequests_inert runs : forall st, effectRequests runs true st = [].
Proof.
  induction runs as [|r runs IH]; intros st; [reflexivity|].
  cbn [effectRequests]. rewrite openEffect_inert. cbn [fst snd app]. apply IH.
Qed.

Lemma sendMessage_requests server t1 t2 text st :
  List.length (snd (sendMessage server t1 t2 text st)) <= 1.
Proof.
  unfold sendMessage. destruct (sendStart t1 text st) as [[st1 req]|]; simpl; lia.
Qed.

(** X23. The initial query is sent at most once in the life of the
    panel. A closed panel sends nothing; once the effect has fired, no later
    run sends anything, whatever initial query it is given; so over any
    series of runs the effect makes at most one request. *)
Theorem initial_query_sent_once (runs : list Run) (st : State) :
  List.length (effectRequests runs false st) <= 1
  /\ (forall server t1 t2 props sent,
        open props = false ->
        openEffect server t1 t2 props sent st = (sent, (st, [])))
  /\ (forall server t1 t2 props,
        openEffect server t1 t2 props true st = (true, (st, []))).
Proof.
  split; [|split].
  - revert st. induction runs as [|r runs IH]; intros st; [simpl; lia|].
    cbn [effectRequests]. unfold openEffect.
    destruct (open (run_props r)); [|cbn [fst snd app]; apply IH].
    destruct (JS.truthy (initialQuery (run_props r))); cbn [andb negb];
      [|cbn [fst snd app]; apply IH].
    cbn [fst snd]. rewrite effectRequests_inert, app_nil_r.
    apply sendMessage_requests.
  - intros server t1 t2 props sent Hopen. unfold openEffect. now rewrite Hopen.
  - intros. apply openEffect_inert.
Qed.

Lemma initial_query_sent_once_witness :
  openEffect (fun _ => FetchRejects) Fixtures.noon Fixtures.noon
    {| open := false; initialQuery := Some "Summarize the handbook" |} false
    (initial Fixtures.noon)
  = (false, (initial Fixtures.noon, [])).
Proof.
  apply (proj1 (proj2 (initial_query_sent_once [] (initial Fixtures.noon)))).
  reflexivity.
Defined.

(** X24. "Ask AI" on the home page hands the trimmed query to the panel,
    and a blank query changes nothing. Opening the panel for the first time
    then sends one request: the trimmed query as the message and the welcome
    message as the history. *)
Theorem ask_ai_sends_trimmed_query
    (server : ChatRoute.ChatRequestBody -> FetchOutcome ChatReply)
    (t0 t1 t2 : Tick) (heroQuery : string) (chatQuery : option string) :
  (JS.trim heroQuery = "" -> HomePage.handleAskAI heroQuery chatQuery = chatQuery)
  /\ (JS.trim heroQuery <> "" ->
      HomePage.handleAskAI heroQuery chatQuery = Some (JS.trim heroQuery)
      /\ snd (snd (openEffect server t1 t2
                     {| open := true;
                        initialQuery := HomePage.handleAskAI heroQuery chatQuery |}
                     false (initial t0)))
         = [ {| ChatRoute.message := JS.trim heroQuery;
                ChatRoute.history := Some [welcome t0] |} ]).
Proof.
  unfold HomePage.handleAskAI. split.
  - intros ->. reflexivity.
  - intros Hq. pose proof Hq as Hq'. apply String.eqb_neq in Hq'. rewrite Hq'.
    cbn [negb]. split; [reflexivity|].
    unfold openEffect. cbn [open initialQuery JS.truthy JS.nullish].
    rewrite Hq'. cbn [negb andb snd].
    unfold sendMessage, sendStart. rewrite trim_again, Hq'.
    reflexivity.
Qed.

Lemma ask_ai_sends_trimmed_query_witness :
  snd (snd (openEffect (fun _ => FetchRejects) Fixtures.noon Fixtures.noon
              {| open := true;
                 initialQuery := HomePage.handleAskAI "  VPN setup " None |}
              false (initial Fixtures.noon)))
  = [ {| ChatRoute.message := "VPN setup";
         ChatRoute.history := Some [welcome Fixtures.noon] |} ].
Proof.
  apply (proj2 (ask_ai_sends_trimmed_query (fun _ => FetchRejects) Fixtures.noon
                  Fixtures.noon Fixtures.noon "  VPN setup " None)).
  discriminate.
Defined.

End PanelOpening.

(** ** Links to the document page *)

Module LinkFacts.

Lemma append_assoc_str a b c : ((a ++ b) ++ c = a ++ (b ++ c))%string.
Proof. induction a as [|x a IH]; simpl; [reflexivity | now rewrite IH]. Qed.

Lemma append_empty s : (s ++ "")%string = s.
Proof. induction s as [|x s IH]; simpl; [reflexivity | now rewrite IH]. Qed.

Lemma quiet_no (sep : ascii) s :
  quiet sep = false ->
  JS.all_chars quiet s = true ->
  JS.all_chars (fun c => negb (Ascii.eqb c sep)) s = true.
Proof.
  intros Hsep. induction s as [|c s IH]; [reflexivity|].
  cbn [JS.all_chars]. intros H. apply andb_true_iff in H. destruct H as [Hc Hs].
  rewrite (IH Hs), andb_true_r.
  destruct (Ascii.eqb_spec c sep) as [->|]; [|reflexivity]. congruence.
Qed.

Lemma quiet_decoded s : JS.all_chars quiet s = true -> JS.percentDecode s = s.
Proof.
  intros H. apply (quiet_no "%" s eq_refl) in H.
  induction s as [|c s IH]; [reflexivity|].
  cbn [JS.all_chars JS.percentDecode] in *.
  apply andb_true_iff in H. destruct H as [Hc Hs].
  apply negb_true_iff in Hc. now rewrite Hc, IH.
Qed.

Lemma digits_quiet d : JS.all_chars quiet (NilEmpty.string_of_uint d) = true.
Proof. induction d; simpl; try reflexivity; exact IHd. Qed.

(** Below [2^53] in magnitude a number is printed as its digits, with a
    minus sign when it is negative. *)
Lemma number_digits z :
  (Z.abs z < 2 ^ 53)%Z -> JS.numberText z = JS.decimalText z.
Proof.
  intros H. unfold JS.numberText. apply Z.ltb_lt in H. now rewrite H.
Qed.

Lemma number_quiet z :
  (Z.abs z < 2 ^ 53)%Z -> JS.all_chars quiet (JS.numberText z) = true.
Proof.
  intros H. rewrite (number_digits z H). unfold JS.decimalText.
  destruct z as [|p|p]; cbn [Z.to_int NilEmpty.string_of_int].
  - reflexivity.
  - apply digits_quiet.
  - cbn [JS.all_chars]. now rewrite digits_quiet.
Qed.

Example number_texts :
  map JS.numberText [14; -3; 2 ^ 53; 2 ^ 60; 10 ^ 21; 2 ^ 70; 10 ^ 23]%Z
  = [ "14"; "-3"; "9007199254740992"; "1152921504606847000"; "1e+21";
      "1.1805916207174113e+21"; "1e+23" ].
Proof. vm_compute. reflexivity. Qed.

Lemma routeChar_quiet c : DocPage.routeChar c = true -> quiet c = true.
Proof. destruct c as [[] [] [] [] [] [] [] []]; vm_compute; intros H; congruence. Qed.

Lemma routeSegment_quiet s :
  JS.all_chars DocPage.routeChar s = true -> JS.all_chars quiet s = true.
Proof.
  induction s as [|c s IH]; [reflexivity|].
  cbn [JS.all_chars]. intros H. apply andb_true_iff in H. destruct H as [Hc Hs].
  now rewrite (routeChar_quiet c Hc), (IH Hs).
Qed.

Lemma cutAt_app sep a b :
  JS.all_chars (fun c => negb (Ascii.eqb c sep)) a = true ->
  JS.cutAt sep (a ++ b) = (a ++ fst (JS.cutAt sep b), snd (JS.cutAt sep b)).
Proof.
  induction a as [|x a IH]; intros H.
  - simpl. now destruct (JS.cutAt sep b).
  - cbn [JS.all_chars] in H. apply andb_true_iff in H. destruct H as [Hx Ha].
    apply negb_true_iff in Hx. cbn [append JS.cutAt]. rewrite Hx, (IH Ha).
    reflexivity.
Qed.

(** What the router and the query-string parser make of
    [/docs/<id>?page=<value>] for an id that can stand as a segment and a
    value without marks. *)
Lemma doc_url id v :
  routeSegment id = true -> JS.all_chars quiet v = true ->
  DocPage.routeId ("/docs/" ++ id ++ "?page=" ++ v) = Some id
  /\ JS.searchParamsGet "page" ("/docs/" ++ id ++ "?page=" ++ v) = Some v.
Proof.
  intros Hseg Hv.
  pose proof Hseg as Hid. unfold routeSegment in Hid.
  apply andb_true_iff in Hid. destruct Hid as [_ Hid].
  apply routeSegment_quiet in Hid.
  assert (Hhash : JS.cutAt "#" ("/docs/" ++ id ++ "?page=" ++ v)
                  = ("/docs/" ++ id ++ "?page=" ++ v, None)).
  { apply UrlFacts.cutAt_absent. rewrite !all_chars_app.
    rewrite (quiet_no "#" id eq_refl Hid), (quiet_no "#" v eq_refl Hv). reflexivity. }
  assert (Hq : JS.cutAt "?" ("/docs/" ++ id ++ "?page=" ++ v)
               = ("/docs/" ++ id, Some ("page=" ++ v))).
  { rewrite <- (append_assoc_str "/docs/" id), cutAt_app.
    - cbn [JS.cutAt Ascii.eqb Bool.eqb fst snd append]. now rewrite append_empty.
    - rewrite all_chars_app, (quiet_no "?" id eq_refl Hid). reflexivity. }
  split.
  - unfold DocPage.routeId, JS.urlPath. rewrite Hhash. cbn [fst]. rewrite Hq.
    cbn [fst]. cbv zeta.
    replace (String.prefix "/docs/" ("/docs/" ++ id)) with true
      by (symmetry; simpl; now destruct id).
    replace (JS.dropChars 6 ("/docs/" ++ id)) with id by reflexivity.
    fold (routeSegment id). now rewrite Hseg.
  - unfold JS.searchParamsGet, JS.urlQuery. rewrite Hhash. cbn [fst]. rewrite Hq.
    cbn [snd JS.nullish]. unfold JS.formParse.
    rewrite (UrlFacts.splitOn_absent "&" ("page=" ++ v))
      by (rewrite all_chars_app, (quiet_no "&" v eq_refl Hv); reflexivity).
    cbn [List.filter].
    replace (negb ("page=" ++ v =? "")) with true by reflexivity.
    cbn [map]. unfold JS.formPair.
    replace (JS.cutAt "=" ("page=" ++ v)) with ("page", Some v) by reflexivity.
    cbv beta iota zeta. cbn [JS.nullish].
    rewrite (UrlFacts.plusToSpace_absent v (quiet_no "+" v eq_refl Hv)).
    rewrite (quiet_decoded v Hv). reflexivity.
Qed.

Lemma viewer_id_page mock id pageParam doc page breadcrumb prompts related :
  DocPage.DocPage mock id pageParam
  = DocPage.Viewer doc page breadcrumb prompts related ->
  doc_id doc = id /\ page = JS.nullish pageParam "1".
Proof.
  unfold DocPage.DocPage. cbv zeta.
  destruct (List.find (fun d => doc_id d =? id) mock) as [d|] eqn:E; [|discriminate].
  intros H. injection H as <- <- _ _ _.
  apply find_some in E. destruct E as [_ E]. apply String.eqb_eq in E. now split.
Qed.

(** X25. The link of a citation card opens the document page for the
    cited document id with the cited page number: whatever the page shows,
    "not found" or a document, it is what the document page shows for that
    id and that page, and a document shown has the cited id and is on the
    cited page. This holds for a document id made of letters, digits,
    hyphens and underscores, not empty, and for a page number below [2^53]
    in magnitude, which is printed as its digits. *)
Theorem citation_link_opens_cited_page (mockDocuments : list Document) (c : Citation) :
  routeSegment (docId c) = true ->
  (Z.abs (cit_pageNumber c) < 2 ^ 53)%Z ->
  DocPage.opened mockDocuments (ChatPanel.citationHref c)
  = Some (DocPage.DocPage mockDocuments (docId c)
            (Some (JS.decimalText (cit_pageNumber c))))
  /\ (forall doc page breadcrumb prompts related,
        DocPage.opened mockDocuments (ChatPanel.citationHref c)
        = Some (DocPage.Viewer doc page breadcrumb prompts related) ->
        doc_id doc = docId c /\ page = JS.decimalText (cit_pageNumber c)).
Proof.
  intros Hid Hpage.
  destruct (doc_url (docId c) (JS.numberText (cit_pageNumber c)) Hid
              (number_quiet _ Hpage)) as [Hroute Hquery].
  assert (E : DocPage.opened mockDocuments (ChatPanel.citationHref c)
              = Some (DocPage.DocPage mockDocuments (docId c)
                        (Some (JS.decimalText (cit_pageNumber c))))).
  { unfold DocPage.opened, ChatPanel.citationHref.
    rewrite Hroute, Hquery, (number_digits _ Hpage). reflexivity. }
  split; [exact E|].
  intros doc page breadcrumb prompts related H. rewrite E in H. injection H as H.
  apply (viewer_id_page _ _ _ _ _ _ _ _ H).
Qed.

Lemma citation_link_opens_cited_page_witness :
  exists doc breadcrumb prompts related,
    DocPage.opened Fixtures.documents
      (ChatPanel.citationHref
         {| docId := "doc-003"; docTitle := "Document 003";
            cit_pageNumber := 14; cit_excerpt := "" |})
    = Some (DocPage.Viewer doc "14" breadcrumb prompts related)
    /\ doc_id doc = "doc-003".
Proof.
  destruct (citation_link_opens_cited_page Fixtures.documents
              {| docId := "doc-003"; docTitle := "Document 003";
                 cit_pageNumber := 14; cit_excerpt := "" |} eq_refl)
    as [E Hview]; [reflexivity|].
  do 4 eexists. split; [rewrite E; reflexivity|]. reflexivity.
Defined.

(** X26. "View Document" on the search page turns a result id [sr-k] into
    the document id [doc-0k]: the link opens the document page for that id
    on the result's page number, for a [k] made of letters, digits, hyphens
    and underscores and a page number below [2^53] in magnitude. *)
Theorem view_document_link (mockDocuments : list Document) (r : SearchResult)
    (k : string) :
  id r = "sr-" ++ k ->
  JS.all_chars DocPage.routeChar k = true ->
  (Z.abs (pageNumber r) < 2 ^ 53)%Z ->
  DocPage.opened mockDocuments (SearchPage.viewHref r)
  = Some (DocPage.DocPage mockDocuments ("doc-0" ++ k)
            (Some (JS.decimalText (pageNumber r)))).
Proof.
  intros Hr Hk Hpage. unfold SearchPage.viewHref. rewrite Hr.
  replace (JS.replaceFirst "sr-" "doc-0" ("sr-" ++ k)) with ("doc-0" ++ k)
    by (simpl; now destruct k).
  destruct (doc_url ("doc-0" ++ k) (JS.numberText (pageNumber r))) as [Hroute Hquery].
  - unfold routeSegment. cbn [String.eqb append negb andb].
    change ("doc-0" ++ k) with (String "d" (String "o" (String "c" (String "-" (String "0" k))))).
    cbn [JS.all_chars]. rewrite Hk. reflexivity.
  - apply number_quiet, Hpage.
  - unfold DocPage.opened. rewrite Hroute, Hquery, (number_digits _ Hpage).
    reflexivity.
Qed.

Lemma view_document_link_witness :
  DocPage.opened Fixtures.documents
    (SearchPage.viewHref
       {| id := "sr-03"; title := ""; excerpt := ""; department := "IT";
          docType := "Guide"; source := ""; pageNumber := 2; lastUpdated := "";
          score := 1 |})
  = Some (DocPage.DocPage Fixtures.documents "doc-003" (Some "2")).
Proof.
  apply (view_document_link Fixtures.documents
           {| id := "sr-03"; title := ""; excerpt := ""; department := "IT";
              docType := "Guide"; source := ""; pageNumber := 2; lastUpdated := "";
              score := 1 |} "03"); reflexivity.
Defined.

End LinkFacts.
